(** * Verification of the webhook processing pipeline of [server.py]

    The development embeds the request pipeline of [server.py] (signature
    check, branch filter, command loop, notification fan-out) and the
    start of the script as a program as executable Rocq functions, the
    pipeline over an explicit state and exception monad, and settles the
    properties the specification states about it, followed by further
    properties of the code.

    Conventions of the embedding:
    - a Python [str] is a [string] whose characters are the code points
      0..255 (the range Starlette produces when it decodes a header value as
      latin-1); a Python [bytes] is a [string] whose characters are the bytes;
    - a Python [dict] with string keys is a [gmap string _] when only lookups
      matter, and a list of pairs inside a JSON value;
    - an exception is a value of [exn]; [str(e)] is the text it carries;
    - everything outside the process (child processes, the SMTP server, the
      chat endpoints, the wall clock) is an oracle of the record [Env]. *)

From Stdlib Require Import ZArith Ascii String Lia.
From Stdlib Require Import Floats.SpecFloat.
From stdpp Require Import base strings list gmap.

(** String concatenation computes on a constructor of its first argument. *)
#[global] Arguments String.append !_ _ / : simpl nomatch.

(** ** Python string primitives *)

Module Py.

Definition nl : string := String "010" EmptyString.

(** [sep.join(parts)] *)
Fixpoint join (sep : string) (parts : list string) : string :=
  match parts with
  | [] => ""
  | [p] => p
  | p :: rest => p +:+ sep +:+ join sep rest
  end.

(** The scan underlying [s.split(sep)] for a non-empty [sep]: occurrences
    of [sep] are found left to right and do not overlap. [skip] counts the
    characters of the separator just matched that are still to be dropped.
    The result is never empty: [''.split(sep) == ['']]. *)
Fixpoint split_scan (sep : string) (skip : nat) (s : string) : list string :=
  match s with
  | EmptyString => [""]
  | String c s' =>
      match skip with
      | S k => split_scan sep k s'
      | O =>
          if String.prefix sep s
          then "" :: split_scan sep (String.length sep - 1) s'
          else match split_scan sep 0 s' with
               | p :: ps => String c p :: ps
               | [] => [String c ""]
               end
      end
  end.

Definition split (sep s : string) : list string := split_scan sep 0 s.

(** [s.replace(old, '')] for a non-empty [old]: the non-overlapping
    occurrences of [old], found left to right, are removed; this is what
    remains when the pieces between them are glued together. *)
Definition remove (old s : string) : string := join "" (split old s).

(** Truthiness of an [Optional[str]]: [None] and [''] are falsy. *)
Definition truthy (o : option string) : bool :=
  match o with
  | Some (String _ _) => true
  | _ => false
  end.

Definition code (c : ascii) : Z := Z.of_N (N_of_ascii c).

(** [s.isascii()] *)
Fixpoint isascii (s : string) : bool :=
  match s with
  | EmptyString => true
  | String c s' => (code c <? 128)%Z && isascii s'
  end.

(** [s.encode('utf-8')] on code points below 256. *)
Fixpoint encode_utf8 (s : string) : list Z :=
  match s with
  | EmptyString => []
  | String c s' =>
      let n := code c in
      if (n <? 128)%Z then n :: encode_utf8 s'
      else Z.lor 192 (Z.shiftr n 6) :: Z.lor 128 (Z.land n 63) :: encode_utf8 s'
  end.

(** The bytes of a [bytes] object. *)
Fixpoint bytes (s : string) : list Z :=
  match s with
  | EmptyString => []
  | String c s' => code c :: bytes s'
  end.

(** [str(n)] for an [int]. *)
Definition digit (n : Z) : ascii := ascii_of_N (Z.to_N (48 + n mod 10)).

Fixpoint dec_digits (fuel : nat) (n : Z) (acc : string) : string :=
  match fuel with
  | O => acc
  | S f =>
      let acc' := String (digit n) acc in
      if (n <? 10)%Z then acc' else dec_digits f (n / 10) acc'
  end.

Definition str_int (n : Z) : string :=
  if (n <? 0)%Z then "-" +:+ dec_digits (Z.to_nat (Z.log2 (- n)) + 1) (- n) ""
  else dec_digits (Z.to_nat (Z.log2 n) + 1) n "".

End Py.

(** ** HMAC-SHA256, as computed by [hmac.new(key, msg, hashlib.sha256)] *)

Module SHA256.
Local Open Scope Z_scope.

Definition wrap32 (x : Z) : Z := Z.land x 4294967295.
Definition add32 (x y : Z) : Z := wrap32 (x + y).
Definition rotr (n x : Z) : Z :=
  Z.lor (Z.shiftr x n) (wrap32 (Z.shiftl x (32 - n))).
Definition not32 (x : Z) : Z := Z.lxor x 4294967295.

Definition Ch (x y z : Z) : Z := Z.lxor (Z.land x y) (Z.land (not32 x) z).
Definition Maj (x y z : Z) : Z :=
  Z.lxor (Z.lxor (Z.land x y) (Z.land x z)) (Z.land y z).
Definition Sum0 (x : Z) : Z := Z.lxor (Z.lxor (rotr 2 x) (rotr 13 x)) (rotr 22 x).
Definition Sum1 (x : Z) : Z := Z.lxor (Z.lxor (rotr 6 x) (rotr 11 x)) (rotr 25 x).
Definition sig0 (x : Z) : Z := Z.lxor (Z.lxor (rotr 7 x) (rotr 18 x)) (Z.shiftr x 3).
Definition sig1 (x : Z) : Z := Z.lxor (Z.lxor (rotr 17 x) (rotr 19 x)) (Z.shiftr x 10).

(** The value of a hexadecimal digit. *)
Definition unhex (c : ascii) : Z :=
  let n := Z.of_N (N_of_ascii c) in
  if n <? 58 then n - 48 else n - 87.

(** The 32-bit words written in a string, eight hexadecimal digits each. *)
Fixpoint words (s : string) : list Z :=
  match s with
  | String a (String b (String c (String d (String e (String f (String g
      (String h rest))))))) =>
      fold_left (fun w x => 16 * w + unhex x) [a; b; c; d; e; f; g; h] 0 :: words rest
  | _ => []
  end.

(** The round constants: the fractional parts of the cube roots of the
    first sixty-four primes. *)
Definition K : list Z :=
  words ("428a2f9871374491b5c0fbcfe9b5dba53956c25b59f111f1923f82a4ab1c5ed5"
         +:+ "d807aa9812835b01243185be550c7dc372be5d7480deb1fe9bdc06a7c19bf174"
         +:+ "e49b69c1efbe47860fc19dc6240ca1cc2de92c6f4a7484aa5cb0a9dc76f988da"
         +:+ "983e5152a831c66db00327c8bf597fc7c6e00bf3d5a7914706ca635114292967"
         +:+ "27b70a852e1b21384d2c6dfc53380d13650a7354766a0abb81c2c92e92722c85"
         +:+ "a2bfe8a1a81a664bc24b8b70c76c51a3d192e819d6990624f40e3585106aa070"
         +:+ "19a4c1161e376c082748774c34b0bcb5391c0cb34ed8aa4a5b9cca4f682e6ff3"
         +:+ "748f82ee78a5636f84c878148cc7020890befffaa4506cebbef9a3f7c67178f2").

(** The initial hash value: the fractional parts of the square roots of the
    first eight primes. *)
Definition IV : list Z :=
  words "6a09e667bb67ae853c6ef372a54ff53a510e527f9b05688c1f83d9ab5be0cd19".

(** Big-endian bytes of [n], [len] of them. *)
Fixpoint be_bytes (len : nat) (n : Z) : list Z :=
  match len with
  | O => []
  | S l => Z.land (Z.shiftr n (8 * Z.of_nat l)) 255 :: be_bytes l n
  end.

(** The message followed by 0x80, zero bytes up to 56 modulo 64, and the
    bit length on eight bytes. *)
Definition pad (msg : list Z) : list Z :=
  let len := Z.of_nat (length msg) in
  msg ++ 128 :: repeat 0 (Z.to_nat ((55 - len) mod 64)) ++ be_bytes 8 (8 * len).

Fixpoint be_words (fuel : nat) (bs : list Z) : list Z :=
  match fuel, bs with
  | S f, b0 :: b1 :: b2 :: b3 :: rest =>
      (Z.shiftl b0 24 + Z.shiftl b1 16 + Z.shiftl b2 8 + b3) :: be_words f rest
  | _, _ => []
  end.

Fixpoint chunks (fuel : nat) (ws : list Z) : list (list Z) :=
  match fuel, ws with
  | S f, _ :: _ => take 16 ws :: chunks f (drop 16 ws)
  | _, _ => []
  end.

(** The message schedule: sixteen block words extended to sixty-four. *)
Fixpoint schedule (n : nat) (w : list Z) : list Z :=
  match n with
  | O => w
  | S n' =>
      let t := length w in
      let at_ i := nth (t - i) w 0 in
      schedule n' (w ++ [add32 (add32 (add32 (sig1 (at_ 2%nat)) (at_ 7%nat))
                                      (sig0 (at_ 15%nat))) (at_ 16%nat)])
  end.

Definition round (h : list Z) (kw : Z * Z) : list Z :=
  match h with
  | [a; b; c; d; e; f; g; hh] =>
      let t1 := add32 (add32 (add32 (add32 hh (Sum1 e)) (Ch e f g)) (fst kw)) (snd kw) in
      let t2 := add32 (Sum0 a) (Maj a b c) in
      [add32 t1 t2; a; b; c; add32 d t1; e; f; g]
  | _ => h
  end.

Definition compress (h block : list Z) : list Z :=
  zip_with add32 h (fold_left round (zip K (schedule 48 block)) h).

Definition digest (msg : list Z) : list Z :=
  let ws := be_words (length msg + 72) (pad msg) in
  let h := fold_left compress (chunks (length ws) ws) IV in
  flat_map (be_bytes 4) h.

Definition block_size : nat := 64.

(** [hmac.new(key, msg, sha256).digest()] *)
Definition hmac (key msg : list Z) : list Z :=
  let k0 := if (block_size <? length key)%nat then digest key else key in
  let k := k0 ++ repeat 0 (block_size - length k0) in
  digest (map (Z.lxor 92) k ++ digest (map (Z.lxor 54) k ++ msg)).

Definition hex_alphabet : list ascii :=
  ["0"; "1"; "2"; "3"; "4"; "5"; "6"; "7"; "8"; "9"; "a"; "b"; "c"; "d"; "e"; "f"]%char.

Definition hex_digit (n : Z) : ascii := nth (Z.to_nat (Z.land n 15)) hex_alphabet "0"%char.

Fixpoint hex (bs : list Z) : string :=
  match bs with
  | [] => ""
  | b :: rest => String (hex_digit (Z.shiftr b 4)) (String (hex_digit b) (hex rest))
  end.

(** [hmac.new(key, msg, sha256).hexdigest()] *)
Definition hmac_hexdigest (key msg : list Z) : string := hex (hmac key msg).

End SHA256.


Module PyRepr.
Import Py.

Definition dquote : ascii := "034"%char.
Definition squote : ascii := "'"%char.
Definition backslash : ascii := "\"%char.

Fixpoint has_char (c : ascii) (s : string) : bool :=
  match s with
  | EmptyString => false
  | String d s' => Ascii.eqb c d || has_char c s'
  end.

(** [str.isprintable] on code points below 256. *)
Definition printable (n : Z) : bool :=
  ((32 <=? n) && (n <? 127) || (161 <=? n) && (n <=? 255) && negb (n =? 173))%Z.

Definition repr_char (quote c : ascii) : string :=
  let n := code c in
  if Ascii.eqb c quote || Ascii.eqb c backslash then String backslash (String c "")
  else if (n =? 9)%Z then "\t"
  else if (n =? 10)%Z then "\n"
  else if (n =? 13)%Z then "\r"
  else if printable n then String c ""
  else "\x" +:+ SHA256.hex [n].

Fixpoint repr_chars (quote : ascii) (s : string) : string :=
  match s with
  | EmptyString => ""
  | String c s' => repr_char quote c +:+ repr_chars quote s'
  end.

(** [repr(s)] for a [str]: single quotes unless the string has a single
    quote and no double quote. *)
Definition repr_str (s : string) : string :=
  let quote := if has_char squote s && negb (has_char dquote s) then dquote else squote in
  String quote (repr_chars quote s +:+ String quote "").

(** [str(l)] for a list of [str]. *)
Definition str_list (l : list string) : string :=
  "[" +:+ join ", " (map repr_str l) +:+ "]".

End PyRepr.

(** ** Data model *)

(** A value produced by [json.loads]; a [dict] is the list of its items.
    A number without fraction and exponent is an [int], any other number
    a [float], the IEEE 754 double it denotes. *)
#[local] Set Warnings "-register-all".
Inductive json :=
| JNull
| JBool (b : bool)
| JNum (n : Z)
| JFloat (x : spec_float)
| JStr (s : string)
| JArr (items : list json)
| JObj (members : list (string * json)).

(** What the handler observes of a [Request]: the raw body, the signature
    header, and what [await request.json()] gives (the text of the decoding
    error, or the decoded value). *)
Record Request := {
  body : string;
  signature_header : option string;
  json_body : string + json
}.

(** [class ProjectConfig(BaseModel)]; [notifications] is [None] for a JSON
    [null] and the empty mapping when the key is absent. *)
Record ProjectConfig := {
  name : string;
  directory : string;
  secret_token : string;
  target_branch : string;
  commands : list (list string);
  notifications : option (gmap string string)
}.

(** An entry of [PROJECTS]: a falsy value ([{}] or [null]), a value that does
    not have the shape of the model (with the text of the validation error),
    or a value of that shape. *)
Inductive raw_config :=
| Falsy
| Malformed (err : string)
| Typed (pc : ProjectConfig).

(** The process environment read at import time. [SMTP_PORT] holds the
    integer value of the variable when it is set. *)
Record Environ := {
  SMTP_SERVER : option string;
  SMTP_PORT : option Z;
  SMTP_USER : option string;
  SMTP_PASSWORD : option string;
  FROM_EMAIL : option string;
  SLACK_TOKEN : option string
}.

Record EmailConfig := {
  smtp_server : option string;
  smtp_port : Z;
  smtp_user : option string;
  smtp_password : option string;
  from_email : option string
}.

(** Lines 38-44. *)
Definition EMAIL_CONFIG (environ : Environ) : EmailConfig :=
  {| smtp_server := SMTP_SERVER environ;
     smtp_port := default 587%Z (SMTP_PORT environ);
     smtp_user := SMTP_USER environ;
     smtp_password := SMTP_PASSWORD environ;
     from_email := FROM_EMAIL environ |}.

Record MIMEText := {
  mime_payload : string;
  Subject : string;
  From : string;
  To : string
}.

Inductive level := INFO | WARNING | ERROR.

(** What a run does to the outside, in order. [Dispatch] marks an entry
    into [send_notifications]. *)
Inductive event :=
| Log (lvl : level) (msg : string)
| Exec (command : list string) (cwd : string)
| Dispatch (project_name status details : string)
| SmtpConnect (server : string) (port : Z)
| SmtpStartTLS
| SmtpLogin (user password : string)
| SmtpSend (msg : MIMEText)
| Post (url : string) (payload : json) (headers : list (string * string)).

(** What [subprocess.check_output] meets: a child that exits with a return
    code and its merged output, or an exception before or after the child
    ran (spawn error, undecodable output). *)
Inductive run_result :=
| Exited (returncode : Z) (output : string)
| Threw (kind text : string).

Inductive smtp_step := Connect | StartTLS | Login | SendMessage.

Global Instance smtp_step_eq_dec : EqDecision smtp_step.
Proof. solve_decision. Defined.

(** The outside world. Every oracle is asked with the number of questions
    asked before it, so the same call may be answered differently later. *)
Record Env := {
  child : nat -> list string -> string -> run_result;
  smtp_fault : nat -> MIMEText -> option (smtp_step * string);
  post_fault : nat -> string -> json -> option string;
  strftime_now : nat -> string;
  signal_repr : Z -> option string
}.

(** ** Exceptions, and the monad of a run *)

Inductive exn :=
| HTTPException (status_code : Z) (detail : string)
| Error (kind text : string).

(** [str(e)] *)
Definition str_exn (e : exn) : string :=
  match e with
  | HTTPException status_code detail => Py.str_int status_code +:+ ": " +:+ detail
  | Error _ text => text
  end.

Inductive outcome (A : Type) :=
| Returned (a : A)
| Raised (e : exn).
Arguments Returned {A} a.
Arguments Raised {A} e.

Record run (A : Type) := Run {
  result : outcome A;
  clock : nat;
  events : list event
}.
Arguments Run {A} result clock events.
Arguments result {A} r.
Arguments clock {A} r.
Arguments events {A} r.

(** A computation starts at a clock value and gives its result, the clock
    value it ends at and the events it produced. *)
Definition M (A : Type) : Type := nat -> run A.

Global Instance M_ret : MRet M := fun A a t => Run (Returned a) t [].

Global Instance M_bind : MBind M := fun A B k m t =>
  match m t with
  | Run (Returned a) t' evs =>
      match k a t' with
      | Run o t'' evs' => Run o t'' (evs ++ evs')
      end
  | Run (Raised e) t' evs => Run (Raised e) t' evs
  end.

Definition raise {A : Type} (e : exn) : M A := fun t => Run (Raised e) t [].

Definition emit (ev : event) : M unit := fun t => Run (Returned ()) t [ev].

(** [try: m except Exception as e: handler(e)] *)
Definition try_except {A : Type} (m : M A) (handler : exn -> M A) : M A := fun t =>
  match m t with
  | Run (Returned a) t' evs => Run (Returned a) t' evs
  | Run (Raised e) t' evs =>
      match handler e t' with
      | Run o t'' evs' => Run o t'' (evs ++ evs')
      end
  end.

(** One question to an oracle. *)
Definition ask {A : Type} (oracle : nat -> A) : M A := fun t =>
  Run (Returned (oracle t)) (S t) [].

Definition logger (lvl : level) (msg : string) : M unit := emit (Log lvl msg).

(** [l[i]] *)
Definition index {A : Type} (l : list A) (i : nat) : M A :=
  match l !! i with
  | Some x => mret x
  | None => raise (Error "IndexError" "list index out of range")
  end.

(** ** The pipeline of [server.py] *)

Section Server.

Variable environ : Environ.
Variable PROJECTS : gmap string raw_config.
Variable env : Env.

(** [hmac.compare_digest(a, b)] on two [str]: both must be ASCII. *)
Definition compare_digest (a b : string) : M bool :=
  if Py.isascii a && Py.isascii b then mret (String.eqb a b)
  else raise (Error "TypeError" "comparing strings with non-ASCII characters is not supported").

(** The value the header is compared with (lines 58-59). *)
Definition expected_signature (secret_token body : string) : string :=
  "sha256=" +:+ SHA256.hmac_hexdigest (Py.encode_utf8 secret_token) (Py.bytes body).

(** Lines 50-60. *)
Definition validate_signature (request : Request) (secret_token : string) : M unit :=
  match signature_header request with
  | None => raise (HTTPException 401 "Signature header missing")
  | Some signature =>
      same ← compare_digest (expected_signature secret_token (body request)) signature;
      if negb same then raise (HTTPException 401 "Invalid signature") else mret ()
  end.

(** One call on the SMTP connection: it is made, and raises when the
    conversation is to break at this step. *)
Definition smtp_call (fault : option (smtp_step * string)) (step : smtp_step)
    (ev : event) : M unit :=
  emit ev;;
  match fault with
  | Some (s, text) =>
      if decide (s = step) then raise (Error "SMTPException" text) else mret ()
  | None => mret ()
  end.

(** Lines 62-80. *)
Definition send_email (to_email subject body : string) : M unit :=
  let cfg := EMAIL_CONFIG environ in
  if negb (Py.truthy (smtp_server cfg) && Py.truthy (smtp_user cfg)
           && Py.truthy (smtp_password cfg) && Py.truthy (from_email cfg))
  then logger WARNING "Email configuration incomplete, skipping email notification"
  else
    let msg := {| mime_payload := body; Subject := subject;
                  From := default "" (from_email cfg); To := to_email |} in
    try_except
      (fault ← ask (fun t => smtp_fault env t msg);
       smtp_call fault Connect (SmtpConnect (default "" (smtp_server cfg)) (smtp_port cfg));;
       smtp_call fault StartTLS SmtpStartTLS;;
       smtp_call fault Login
         (SmtpLogin (default "" (smtp_user cfg)) (default "" (smtp_password cfg)));;
       smtp_call fault SendMessage (SmtpSend msg);;
       logger INFO ("Email sent to " +:+ to_email))
      (fun e => logger ERROR ("Failed to send email: " +:+ str_exn e)).

(** Lines 90-94. *)
Definition validate_commands (v : list (list string)) : string + list (list string) :=
  match v with
  | [] => inl "At least one command must be specified"
  | _ => inr v
  end.

(** The constructor of the model applied to a value of the model's
    shape (line 269); the text is that of the validation error. *)
Definition ProjectConfig_init (pc : ProjectConfig) : string + ProjectConfig :=
  match validate_commands (commands pc) with
  | inl msg =>
      inl ("1 validation error for ProjectConfig" +:+ Py.nl +:+ "commands" +:+ Py.nl
           +:+ "  " +:+ msg +:+ " (type=value_error)")
  | inr _ => inr pc
  end.

(** Lines 103-107 and, word for word, lines 154-158: the message is taken
    apart again into project name, status and details. *)
Definition parse_message (message : string) : M (string * string * string) :=
  let lines := Py.split Py.nl message in
  line0 ← index lines 0;
  let project_info := Py.split " - " line0 in
  info0 ← index project_info 0;
  let project_name := Py.remove "Webhook for " info0 in
  info1 ← index project_info 1;
  let status := Py.remove "Status: " info1 in
  let details := Py.join Py.nl (drop 2 lines) in
  mret (project_name, status, details).

(** [client.post(...)] followed by [raise_for_status()]. *)
Definition post (url : string) (payload : json) (headers : list (string * string))
    : M unit :=
  fault ← ask (fun t => post_fault env t url payload);
  emit (Post url payload headers);;
  match fault with
  | Some text => raise (Error "HTTPError" text)
  | None => mret ()
  end.

Definition now : M string := ask (strftime_now env).

(** Lines 96-145. *)
Definition send_slack (message webhook_url : string) : M unit :=
  if negb (Py.truthy (SLACK_TOKEN environ)) || negb (Py.truthy (Some webhook_url))
  then logger WARNING "Slack configuration incomplete, skipping Slack notification"
  else
    '(project_name, status, details) ← parse_message message;
    let color :=
      if String.eqb status "Success" then "#36a64f"
      else if String.eqb status "Failed" then "#ff0000" else "#808080" in
    timestamp ← now;
    let payload :=
      JObj [("attachments", JArr [JObj [
        ("color", JStr color);
        ("title", JStr ("Webhook Notification: " +:+ project_name));
        ("fields", JArr [
           JObj [("title", JStr "Status"); ("value", JStr status); ("short", JBool true)];
           JObj [("title", JStr "Timestamp"); ("value", JStr timestamp);
                 ("short", JBool true)];
           JObj [("title", JStr "Details");
                 ("value", JStr (if Py.truthy (Some details)
                                 then "```" +:+ details +:+ "```"
                                 else "No details available"));
                 ("short", JBool false)]]);
        ("footer", JStr "GitHub Webhook Service")]])] in
    let headers :=
      [("Authorization", "Bearer " +:+ default "" (SLACK_TOKEN environ));
       ("Content-Type", "application/json")] in
    try_except
      (post webhook_url payload headers;;
       logger INFO "Slack notification sent")
      (fun e => logger ERROR ("Failed to send Slack notification: " +:+ str_exn e)).

(** Lines 147-184. *)
Definition send_mattermost (message webhook_url : string) : M unit :=
  if negb (Py.truthy (Some webhook_url))
  then logger WARNING "Mattermost webhook URL not provided, skipping Mattermost notification"
  else
    '(project_name, status, details) ← parse_message message;
    let icon :=
      if String.eqb status "Success" then ":white_check_mark:"
      else if String.eqb status "Failed" then ":x:" else ":grey_question:" in
    timestamp ← now;
    let formatted_message :=
      Py.nl +:+ "### :bell: Webhook Notification: " +:+ project_name +:+ Py.nl
      +:+ Py.nl
      +:+ "**Status**: " +:+ icon +:+ " " +:+ status +:+ Py.nl
      +:+ "**Time**: " +:+ timestamp +:+ Py.nl
      +:+ Py.nl
      +:+ "#### Details:" +:+ Py.nl
      +:+ "```" +:+ Py.nl
      +:+ details +:+ Py.nl
      +:+ "```" +:+ Py.nl
      +:+ "---" +:+ Py.nl
      +:+ "*GitHub Webhook Service*" +:+ Py.nl in
    let payload := JObj [("text", JStr formatted_message)] in
    let headers := [("Content-Type", "application/json")] in
    try_except
      (post webhook_url payload headers;;
       logger INFO "Mattermost notification sent")
      (fun e => logger ERROR ("Failed to send Mattermost notification: " +:+ str_exn e)).

(** [notifications.get(key)]; [None] has no [get]. *)
Definition notifications_get (notifications : option (gmap string string))
    (key : string) : M (option string) :=
  match notifications with
  | Some d => mret (d !! key)
  | None => raise (Error "AttributeError" "'NoneType' object has no attribute 'get'")
  end.

(** Lines 186-195. *)
Definition send_notifications (project_name status details : string)
    (notifications : option (gmap string string)) : M unit :=
  emit (Dispatch project_name status details);;
  let message :=
    "Webhook for " +:+ project_name +:+ " - Status: " +:+ status +:+ Py.nl
    +:+ "Details: " +:+ details in
  email ← notifications_get notifications "email";
  (if Py.truthy email
   then send_email (default "" email) ("Webhook Update: " +:+ project_name) message
   else mret ());;
  slack_webhook ← notifications_get notifications "slack_webhook";
  (if Py.truthy slack_webhook
   then send_slack message (default "" slack_webhook)
   else mret ());;
  mattermost_webhook ← notifications_get notifications "mattermost_webhook";
  (if Py.truthy mattermost_webhook
   then send_mattermost message (default "" mattermost_webhook)
   else mret ()).

(** [str(e)] for the [CalledProcessError] of a child that ran [cmd]. *)
Definition str_CalledProcessError (cmd : list string) (returncode : Z) : string :=
  if (returncode <? 0)%Z then
    match signal_repr env (- returncode) with
    | Some sig =>
        "Command '" +:+ PyRepr.str_list cmd +:+ "' died with " +:+ sig +:+ "."
    | None =>
        "Command '" +:+ PyRepr.str_list cmd +:+ "' died with unknown signal "
        +:+ Py.str_int (- returncode) +:+ "."
    end
  else
    "Command '" +:+ PyRepr.str_list cmd +:+ "' returned non-zero exit status "
    +:+ Py.str_int returncode +:+ ".".

(** [subprocess.check_output(command, text=True, stderr=STDOUT, cwd=cwd)] *)
Definition check_output (command : list string) (cwd : string) : M string :=
  r ← ask (fun t => child env t command cwd);
  emit (Exec command cwd);;
  match r with
  | Exited 0 output => mret output
  | Exited returncode _ =>
      raise (Error "CalledProcessError" (str_CalledProcessError command returncode))
  | Threw kind text => raise (Error kind text)
  end.

(** The loop of lines 214-222. *)
Fixpoint run_commands (cmds : list (list string)) (cwd : string)
    (command_outputs : list string) : M (list string) :=
  match cmds with
  | [] => mret command_outputs
  | command :: rest =>
      logger INFO ("Executing command: " +:+ Py.join " " command);;
      result ← check_output command cwd;
      run_commands rest cwd
        (command_outputs ++ ["Command " +:+ Py.join " " command +:+ ": " +:+ result])
  end.

(** [payload.get('ref')]: only a [dict] has [get]. *)
Definition type_name (v : json) : string :=
  match v with
  | JNull => "NoneType"
  | JBool _ => "bool"
  | JNum _ => "int"
  | JFloat _ => "float"
  | JStr _ => "str"
  | JArr _ => "list"
  | JObj _ => "dict"
  end.

Fixpoint assoc (key : string) (members : list (string * json)) : option json :=
  match members with
  | [] => None
  | (k, v) :: rest => if String.eqb k key then Some v else assoc key rest
  end.

Definition payload_get (payload : json) (key : string) : M (option json) :=
  match payload with
  | JObj members => mret (assoc key members)
  | _ =>
      raise (Error "AttributeError"
               ("'" +:+ type_name payload +:+ "' object has no attribute 'get'"))
  end.

(** [v != s] for the result [v] of a [get] and a [str] [s]. *)
Definition differs (v : option json) (s : string) : bool :=
  match v with
  | Some (JStr r) => negb (String.eqb r s)
  | _ => true
  end.

(** [await request.json()] *)
Definition request_json (request : Request) : M json :=
  match json_body request with
  | inl text => raise (Error "JSONDecodeError" text)
  | inr v => mret v
  end.

(** The response body, a [dict] of strings in insertion order. *)
Definition response : Type := list (string * string).

(** Lines 200-224, the body of the [try]: it either returns from the
    function (left) or falls through with [status] and [details] set
    (right). *)
Definition try_body (request : Request) (project_config : ProjectConfig)
    : M (response + string * string) :=
  validate_signature request (secret_token project_config);;
  payload ← request_json request;
  logger INFO ("Received webhook for project " +:+ name project_config);;
  ref ← payload_get payload "ref";
  if differs ref (target_branch project_config)
  then
    send_notifications (name project_config) "Ignored"
      ("Push was not to the target branch " +:+ target_branch project_config +:+ ".")
      (notifications project_config);;
    mret (inl [("message", "Push was not to the target branch, ignoring.")])
  else
    command_outputs ← run_commands (commands project_config)
                        (directory project_config) [];
    mret (inr ("Success", Py.join Py.nl command_outputs)).

(** Lines 226-233, the [except] clauses. *)
Definition except_clauses (project_config : ProjectConfig) (e : exn)
    : M (response + string * string) :=
  match e with
  | HTTPException _ _ => raise e
  | Error _ _ =>
      let status := "Failed" in
      let details := str_exn e in
      logger ERROR ("Error processing webhook for " +:+ name project_config
                    +:+ ": " +:+ details);;
      send_notifications (name project_config) status details
        (notifications project_config);;
      raise (HTTPException 500 details)
  end.

(** Lines 197-240. *)
Definition process_webhook (request : Request) (project_config : ProjectConfig)
    : M response :=
  r ← try_except (try_body request project_config) (except_clauses project_config);
  match r with
  | inl early => mret early
  | inr (status, details) =>
      send_notifications (name project_config) status details
        (notifications project_config);;
      mret [("message", "Webhook received and processed for " +:+ name project_config);
            ("status", status);
            ("details", details)]
  end.

(** Lines 263-274: the project is looked up and its configuration
    validated. *)
Definition resolve (project_name : string) : exn + ProjectConfig :=
  match PROJECTS !! project_name with
  | None | Some Falsy => inl (HTTPException 404 "Project not found")
  | Some (Malformed err) =>
      inl (HTTPException 500 ("Invalid project configuration: " +:+ err))
  | Some (Typed pc) =>
      match ProjectConfig_init pc with
      | inl err => inl (HTTPException 500 ("Invalid project configuration: " +:+ err))
      | inr _ => inr pc
      end
  end.

(** Lines 260-276. *)
Definition webhook_handler (request : Request) (project_name : string) : M response :=
  match resolve project_name with
  | inl e => raise e
  | inr project_config => process_webhook request project_config
  end.

End Server.

(** The status line of the HTTP response: 200 for a returned body, the code
    of an [HTTPException], and 500 for any other exception that leaves the
    handler. *)
Definition http_status {A : Type} (o : outcome A) : Z :=
  match o with
  | Returned _ => 200
  | Raised (HTTPException status_code _) => status_code
  | Raised (Error _ _) => 500
  end.

(** ** The script run as a program (lines 28-46 and 278-298) *)

(** [os.getenv] is a function from names to values; [int] stands for the
    built-in applied to a [str]: the integer, or the text of the
    [ValueError]; [config_error] is the exception that opening and
    decoding the configuration file raises, if any. The imports and the
    definitions of the module are taken to succeed. *)
Section Program.

Variable getenv : string -> option string.
Variable int : string -> string + Z.
Variable config_error : option exn.

(** Lines 38-46: the settings read when the module is loaded. The port is
    converted there, and a value that is no integer ends the load. *)
Definition environ_of : string + Environ :=
  let settings (port : option Z) :=
    {| SMTP_SERVER := getenv "SMTP_SERVER"; SMTP_PORT := port;
       SMTP_USER := getenv "SMTP_USER"; SMTP_PASSWORD := getenv "SMTP_PASSWORD";
       FROM_EMAIL := getenv "FROM_EMAIL"; SLACK_TOKEN := getenv "SLACK_TOKEN" |} in
  match getenv "SMTP_PORT" with
  | None => inr (settings None)
  | Some text =>
      match int text with
      | inl err => inl err
      | inr port => inr (settings (Some port))
      end
  end.

(** Lines 281-288. *)
Definition required_vars : list string :=
  ["WEBHOOK_CONFIG"; "SMTP_SERVER"; "SMTP_USER"; "SMTP_PASSWORD"; "WEBHOOK_HOST";
   "WEBHOOK_PORT"].

(** Line 289. *)
Definition missing_vars : list string :=
  List.filter (fun var => negb (Py.truthy (getenv var))) required_vars.

(** How the block ends: [sys.exit], an exception nobody catches, or the
    call of [uvicorn.run]. *)
Inductive startup : Type :=
| Exit (status : Z)
| Uncaught (e : exn)
| Serving (host : string) (port : Z).

(** Lines 289-298, with the lines logged on the way. *)
Definition main : list event * startup :=
  match missing_vars with
  | _ :: _ =>
      ([Log ERROR ("Missing required environment variables: "
                   +:+ Py.join ", " missing_vars)],
       Exit 1)
  | [] =>
      let host := default "0.0.0.0" (getenv "WEBHOOK_HOST") in
      match int (default "8000" (getenv "WEBHOOK_PORT")) with
      | inl err => ([], Uncaught (Error "ValueError" err))
      | inr port =>
          ([Log INFO ("Starting webhook server on " +:+ host +:+ ":"
                      +:+ Py.str_int port)],
           Serving host port)
      end
  end.

(** Line 28. *)
Definition CONFIG_FILE : string := default "projects.json" (getenv "WEBHOOK_CONFIG").

(** Lines 30-35: of the exceptions of reading the configuration file only
    a [FileNotFoundError] is caught, and logged; any other one leaves the
    module. *)
Definition load_config : list event * option exn :=
  match config_error with
  | None => ([], None)
  | Some (Error kind text) =>
      if String.eqb kind "FileNotFoundError"
      then ([Log ERROR ("Configuration file " +:+ CONFIG_FILE +:+ " not found")], None)
      else ([], Some (Error kind text))
  | Some e => ([], Some e)
  end.

(** The script from its first line to the call of [uvicorn.run]: the
    statements of the module that can raise (lines 30-35 and 38-44), then
    the block of lines 278-298. *)
Definition script : list event * startup :=
  match load_config with
  | (_, Some e) => ([], Uncaught e)
  | (logged, None) =>
      match environ_of with
      | inl err => (logged, Uncaught (Error "ValueError" err))
      | inr _ => (logged ++ fst main, snd main)
      end
  end.

(** The status the process ends with: the argument of [sys.exit], and 1
    after an exception nobody catches; a server that runs has not ended. *)
Definition exit_status (s : startup) : option Z :=
  match s with
  | Exit status => Some status
  | Uncaught _ => Some 1%Z
  | Serving _ _ => None
  end.

End Program.

(** ** Vocabulary of the properties *)

(** The message [send_notifications] builds (line 188). *)
Definition message_of (project_name status details : string) : string :=
  "Webhook for " +:+ project_name +:+ " - Status: " +:+ status +:+ Py.nl
  +:+ "Details: " +:+ details.

(** A string without line break. *)
Definition one_line (s : string) : Prop := PyRepr.has_char "010" s = false.

(** The label and output of a command, as collected at line 222. *)
Definition label (command : list string) (output : string) : string :=
  "Command " +:+ Py.join " " command +:+ ": " +:+ output.

(** The commands [cmds], started one after the other from clock [t] in
    [cwd], all exit with code 0, and [outs] are their outputs. *)
Fixpoint succeed_from (env : Env) (cwd : string) (t : nat)
    (cmds : list (list string)) (outs : list string) : Prop :=
  match cmds, outs with
  | [], [] => True
  | c :: cs, o :: os =>
      child env t c cwd = Exited 0 o /\ succeed_from env cwd (S t) cs os
  | _, _ => False
  end.

(** The exception [check_output] raises on what the child did, if any. *)
Definition failure (env : Env) (command : list string) (r : run_result) : option exn :=
  match r with
  | Exited 0 _ => None
  | Exited returncode _ =>
      Some (Error "CalledProcessError" (str_CalledProcessError env command returncode))
  | Threw kind text => Some (Error kind text)
  end.

(** The events of starting the commands [cmds] in [cwd]. *)
Definition started (cwd : string) (cmds : list (list string)) : list event :=
  flat_map (fun c => [Log INFO ("Executing command: " +:+ Py.join " " c); Exec c cwd])
    cmds.

(** A run that did not end on an [HTTPException]. *)
Definition tame {A : Type} (r : run A) : Prop :=
  match result r with
  | Raised (HTTPException _ _) => False
  | _ => True
  end.

(** Some entry into [send_notifications] is among the events. *)
Definition dispatched (evs : list event) : Prop :=
  exists project_name status details, Dispatch project_name status details ∈ evs.

(** A POST to [url] is among the events. *)
Definition posted (url : string) (evs : list event) : Prop :=
  exists payload headers, Post url payload headers ∈ evs.

(** The header carries the signature of the body under the project's
    secret. *)
Definition valid_signature (request : Request) (pc : ProjectConfig) : Prop :=
  signature_header request = Some (expected_signature (secret_token pc) (body request)).

(** The four settings line 64 asks for are present and not empty. *)
Definition smtp_complete (environ : Environ) : bool :=
  Py.truthy (SMTP_SERVER environ) && Py.truthy (SMTP_USER environ)
  && Py.truthy (SMTP_PASSWORD environ) && Py.truthy (FROM_EMAIL environ).

(** The message line 68-71 builds. *)
Definition mime_of (environ : Environ) (to_email subject body : string) : MIMEText :=
  {| mime_payload := body; Subject := subject;
     From := default "" (FROM_EMAIL environ); To := to_email |}.

(** The calls of a complete SMTP conversation (lines 74-77), in order. *)
Definition smtp_conversation (environ : Environ) (msg : MIMEText) : list event :=
  [SmtpConnect (default "" (SMTP_SERVER environ)) (default 587%Z (SMTP_PORT environ));
   SmtpStartTLS;
   SmtpLogin (default "" (SMTP_USER environ)) (default "" (SMTP_PASSWORD environ));
   SmtpSend msg].

(** How many calls are made when the conversation breaks at [step]. *)
Definition calls_until (step : smtp_step) : nat :=
  match step with
  | Connect => 1
  | StartTLS => 2
  | Login => 3
  | SendMessage => 4
  end.

(** [needle in haystack] *)
Fixpoint contains (needle haystack : string) : bool :=
  String.prefix needle haystack
  || match haystack with
     | EmptyString => false
     | String _ rest => contains needle rest
     end.

(** An event other than the start of a child process. *)
Definition quiet (e : event) : Prop :=
  match e with
  | Exec _ _ => False
  | _ => True
  end.

(** The events that are an attempt on the outside: a child started, a
    dispatch entered, a connection to the mail server opened, a POST made.
    Log lines and the later steps of an SMTP conversation are not. *)
Definition attempt (e : event) : bool :=
  match e with
  | Exec _ _ | Dispatch _ _ _ | SmtpConnect _ _ | Post _ _ _ => true
  | Log _ _ | SmtpStartTLS | SmtpLogin _ _ | SmtpSend _ => false
  end.

Definition attempts (evs : list event) : list event := List.filter attempt evs.

(** Two runs that end alike: same result, same clock, same attempts. *)
Definition alike {A : Type} (r1 r2 : run A) : Prop :=
  result r1 = result r2 /\ clock r1 = clock r2
  /\ attempts (events r1) = attempts (events r2).

(** The child processes started, in order. *)
Definition is_exec (e : event) : bool :=
  match e with
  | Exec _ _ => true
  | _ => false
  end.

Definition executed (evs : list event) : list event := List.filter is_exec evs.

(** What the branch filter leaves behind: no child is started, a dispatch
    with status Ignored is entered and reaches every configured channel,
    and the body returned has the message only. *)
Definition ignored_outcome (environ : Environ) (pc : ProjectConfig)
    (targets : gmap string string) (r : run response) : Prop :=
  result r = Returned [("message", "Push was not to the target branch, ignoring.")]
  /\ http_status (result r) = 200%Z
  /\ executed (events r) = []
  /\ Dispatch (name pc) "Ignored"
       ("Push was not to the target branch " +:+ target_branch pc +:+ ".") ∈ events r
  /\ (forall url, targets !! "slack_webhook" = Some url -> url <> "" ->
        Py.truthy (SLACK_TOKEN environ) = true -> posted url (events r))
  /\ (forall url, targets !! "mattermost_webhook" = Some url -> url <> "" ->
        posted url (events r))
  /\ (forall to_email, targets !! "email" = Some to_email -> to_email <> "" ->
        smtp_complete environ = true ->
        SmtpConnect (default "" (SMTP_SERVER environ))
          (default 587%Z (SMTP_PORT environ)) ∈ events r).

(** The statuses the processor passes to the dispatch (lines 207, 223 and
    229). *)
Definition statuses : list string := ["Ignored"; "Success"; "Failed"].

(** An event other than a POST. *)
Definition unposted (e : event) : Prop :=
  match e with
  | Post _ _ _ => False
  | _ => True
  end.

(** The headers of the two chat backends (lines 137 and 176). *)
Definition slack_headers (environ : Environ) : list (string * string) :=
  [("Authorization", "Bearer " +:+ default "" (SLACK_TOKEN environ));
   ("Content-Type", "application/json")].

Definition mattermost_headers : list (string * string) :=
  [("Content-Type", "application/json")].

(** A delivery that goes where the notification settings of the project
    point: a POST to the Slack entry, with the token, when the token is
    set, or to the Mattermost entry, without it; a mail to the address of
    the email entry, from the configured sender. Other events are not
    deliveries. *)
Definition destined (environ : Environ) (notifications : option (gmap string string))
    (e : event) : Prop :=
  match e with
  | Post url _ headers =>
      url <> ""
      /\ exists targets,
           notifications = Some targets
           /\ (targets !! "slack_webhook" = Some url
               /\ Py.truthy (SLACK_TOKEN environ) = true
               /\ headers = slack_headers environ
               \/ targets !! "mattermost_webhook" = Some url
                  /\ headers = mattermost_headers)
  | SmtpSend msg =>
      To msg <> ""
      /\ From msg = default "" (FROM_EMAIL environ)
      /\ exists targets,
           notifications = Some targets /\ targets !! "email" = Some (To msg)
  | _ => True
  end.

(** ** A deployment to evaluate the pipeline on *)

Module Demo.

Definition quote : string := String "034" "".

(** The body of a push event: a JSON object with the key ref. *)
Definition push_body (ref : string) : string :=
  "{" +:+ quote +:+ "ref" +:+ quote +:+ ":" +:+ quote +:+ ref +:+ quote +:+ "}".

Definition push (ref signature : string) : Request :=
  {| body := push_body ref;
     signature_header := Some signature;
     json_body := inr (JObj [("ref", JStr ref)]) |}.

Definition push_main : Request :=
  push "refs/heads/main"
    "sha256=232a5e067b6a5aa567ed5a1d21a0dffaf6ef0eeecb6bd9bcf43b3d5ef3fc4f43".

Definition push_dev : Request :=
  push "refs/heads/dev"
    "sha256=3613abae486ed904a0235bd1d8a77fdfdbe98fcb32e476d1b6ffa5ca81b8d98e".


(** A push whose signature header is the single character U+00E9. *)
Definition push_latin1 : Request := push "refs/heads/main" (String "233" "").

Definition project (commands : list (list string)) (targets : gmap string string)
    : ProjectConfig :=
  {| name := "demo"; directory := "/srv/demo"; secret_token := "s3cret";
     target_branch := "refs/heads/main"; commands := commands;
     notifications := Some targets |}.

Definition chat : gmap string string :=
  {[ "slack_webhook" := "https://hooks.slack.example/T0/B0";
     "mattermost_webhook" := "https://chat.example/hooks/demo" ]}.

Definition demo : ProjectConfig := project [["echo"; "hi"]] chat.

Definition deploy : ProjectConfig :=
  project [["git"; "pull"]; ["make"; "deploy"]; ["systemctl"; "restart"; "demo"]] chat.

Definition PROJECTS : gmap string raw_config :=
  {[ "demo" := Typed demo; "deploy" := Typed deploy ]}.

(** Slack token set, no SMTP setting at all. *)
Definition environ : Environ :=
  {| SMTP_SERVER := None; SMTP_PORT := None; SMTP_USER := None;
     SMTP_PASSWORD := None; FROM_EMAIL := None; SLACK_TOKEN := Some "xoxb-1" |}.

(** Every SMTP setting but the port. *)
Definition environ_no_port : Environ :=
  {| SMTP_SERVER := Some "smtp.example.org"; SMTP_PORT := None;
     SMTP_USER := Some "bot"; SMTP_PASSWORD := Some "hunter2";
     FROM_EMAIL := Some "bot@example.org"; SLACK_TOKEN := None |}.

Definition signals (n : Z) : option string :=
  if (n =? 9)%Z then Some "<Signals.SIGKILL: 9>"
  else if (n =? 15)%Z then Some "<Signals.SIGTERM: 15>" else None.

Definition answer (command : list string) : run_result :=
  let line := Py.join " " command in
  if String.eqb line "echo hi" then Exited 0 ("hi" +:+ Py.nl)
  else if String.eqb line "git pull" then Exited 0 ("Already up to date." +:+ Py.nl)
  else if String.eqb line "make deploy" then Exited 2 ("error: disk full" +:+ Py.nl)
  else Exited 0 "".

(** A world where every delivery goes through. *)
Definition calm : Env :=
  {| child := fun _ command _ => answer command;
     smtp_fault := fun _ _ => None;
     post_fault := fun _ _ _ => None;
     strftime_now := fun _ => "2024-05-01 12:00:00";
     signal_repr := signals |}.

(** The same world with the mail server and the chat endpoints down. *)
Definition stormy : Env :=
  {| child := fun _ command _ => answer command;
     smtp_fault := fun _ _ => Some (Connect, "[Errno 111] Connection refused");
     post_fault := fun _ _ _ => Some "All connection attempts failed";
     strftime_now := fun _ => "2024-05-01 12:00:00";
     signal_repr := signals |}.

End Demo.

(** ** Further inputs *)

Module More.

(** A project whose name has a line break. *)
Definition shop : ProjectConfig :=
  {| name := "shop" +:+ Py.nl +:+ "backend"; directory := "/srv/shop";
     secret_token := "s3cret"; target_branch := "refs/heads/main";
     commands := [["echo"; "hi"]]; notifications := Some Demo.chat |}.

(** A project without commands, and a registry that has it. *)
Definition idle : ProjectConfig :=
  {| name := "idle"; directory := "/srv/idle"; secret_token := "s3cret";
     target_branch := "refs/heads/main"; commands := [];
     notifications := Some Demo.chat |}.

Definition PROJECTS : gmap string raw_config :=
  {[ "idle" := Typed idle; "shop" := Typed shop ]}.

(** A request signed with the secret of the demo projects. *)
Definition signed (raw : string) (decoded : string + json) : Request :=
  {| body := raw;
     signature_header := Some (expected_signature "s3cret" raw);
     json_body := decoded |}.

(** A body that is not JSON, and one that is a JSON array. *)
Definition garbage : Request :=
  signed "ref=refs/heads/main" (inl "Expecting value: line 1 column 1 (char 0)").

Definition array : Request := signed "[]" (inr (JArr [])).

(** A body that is the number 1.5, the float 3 * 2^-1. *)
Definition fraction : Request :=
  signed "1.5" (inr (JFloat (S754_finite false 3 (-1)))).

(** A project whose notifications entry is null. *)
Definition mute : ProjectConfig :=
  {| name := "mute"; directory := "/srv/mute"; secret_token := "s3cret";
     target_branch := "refs/heads/main"; commands := [["echo"; "hi"]];
     notifications := None |}.

(** The environment of a host that sets the six required variables and
    nothing else, the integers of its port texts, and the settings the
    module reads from it. *)
Definition getenv (var : string) : option string :=
  if String.eqb var "WEBHOOK_CONFIG" then Some "projects.json"
  else if String.eqb var "SMTP_SERVER" then Some "smtp.example.org"
  else if String.eqb var "SMTP_USER" then Some "bot"
  else if String.eqb var "SMTP_PASSWORD" then Some "hunter2"
  else if String.eqb var "WEBHOOK_HOST" then Some "127.0.0.1"
  else if String.eqb var "WEBHOOK_PORT" then Some "9000"
  else None.

Definition int (text : string) : string + Z :=
  if String.eqb text "9000" then inr 9000%Z
  else if String.eqb text "8000" then inr 8000%Z
  else inl ("invalid literal for int() with base 10: " +:+ PyRepr.repr_str text).

Definition environ : Environ :=
  {| SMTP_SERVER := Some "smtp.example.org"; SMTP_PORT := None;
     SMTP_USER := Some "bot"; SMTP_PASSWORD := Some "hunter2";
     FROM_EMAIL := None; SLACK_TOKEN := None |}.

End More.

(** ** Facts about the string primitives *)

Section StringFacts.

Lemma app_assoc_s (a b c : string) : (a +:+ b) +:+ c = a +:+ (b +:+ c).
Proof. induction a as [|x a IH]; simpl; [reflexivity | now f_equal]. Qed.

Lemma prefix_app (sep rest : string) : String.prefix sep (sep +:+ rest) = true.
Proof.
  induction sep as [|x sep IH]; simpl.
  - now destruct rest.
  - destruct (ascii_dec x x) as [_|ne]; [exact IH | now destruct ne].
Qed.

Lemma has_char_app (c : ascii) (a b : string) :
  PyRepr.has_char c (a +:+ b) = PyRepr.has_char c a || PyRepr.has_char c b.
Proof.
  induction a as [|x a IH]; simpl; [reflexivity|].
  rewrite IH. now destruct (Ascii.eqb c x).
Qed.

Lemma split_scan_nonempty (sep : string) (s : string) :
  forall skip, Py.split_scan sep skip s <> [].
Proof.
  induction s as [|x s IH]; intros skip; cbn [Py.split_scan]; [done|].
  destruct skip as [|k]; [|apply IH].
  destruct (String.prefix sep (String x s)); [done|].
  destruct (Py.split_scan sep 0 s); done.
Qed.

(** A string in which the separator occurs splits into two pieces at
    least. *)
Lemma split_occurrence (sep a b : string) :
  sep <> "" -> 2 <= length (Py.split sep (a +:+ sep +:+ b)).
Proof.
  intros Hsep. unfold Py.split.
  induction a as [|x a IH].
  - destruct sep as [|c sep]; [now destruct Hsep|].
    change ("" +:+ String c sep +:+ b) with (String c (sep +:+ b)).
    cbn [Py.split_scan].
    change (String c (sep +:+ b)) with (String c sep +:+ b).
    rewrite prefix_app.
    pose proof (split_scan_nonempty (String c sep) (sep +:+ b)
                  (String.length (String c sep) - 1)) as Hne.
    destruct (Py.split_scan _ _ (sep +:+ b)); [now destruct Hne | simpl; lia].
  - change (String x a +:+ sep +:+ b) with (String x (a +:+ sep +:+ b)).
    cbn [Py.split_scan].
    destruct (String.prefix sep (String x (a +:+ sep +:+ b))).
    + pose proof (split_scan_nonempty sep (a +:+ sep +:+ b)
                    (String.length sep - 1)) as Hne.
      destruct (Py.split_scan sep (String.length sep - 1) (a +:+ sep +:+ b));
        [now destruct Hne | simpl; lia].
    + destruct (Py.split_scan sep 0 (a +:+ sep +:+ b)); simpl in *; lia.
Qed.

(** Splitting at line breaks: a first piece without line break comes out
    whole. *)
Lemma split_first_line (a b : string) :
  PyRepr.has_char "010" a = false ->
  Py.split Py.nl (a +:+ Py.nl +:+ b) = a :: Py.split Py.nl b.
Proof.
  unfold Py.split. induction a as [|x a IH]; intros Ha.
  - now destruct b.
  - cbn [PyRepr.has_char] in Ha. apply orb_false_elim in Ha as [Hx Ha].
    change (String x a +:+ Py.nl +:+ b) with (String x (a +:+ Py.nl +:+ b)).
    cbn [Py.split_scan].
    assert (String.prefix Py.nl (String x (a +:+ Py.nl +:+ b)) = false) as ->.
    { unfold Py.nl. cbn [String.prefix].
      destruct (ascii_dec "010" x) as [<-|_]; [|reflexivity].
      now rewrite Ascii.eqb_refl in Hx. }
    now rewrite (IH Ha).
Qed.

End StringFacts.

(** ** Facts about runs *)

Section RunFacts.

Context {A B : Type}.
Implicit Types (m : M A) (k : A -> M B) (t : nat).

Lemma bind_run m k t :
  (m ≫= k) t =
  match result (m t) with
  | Returned a =>
      let r := k a (clock (m t)) in
      Run (result r) (clock r) (events (m t) ++ events r)
  | Raised e => Run (Raised e) (clock (m t)) (events (m t))
  end.
Proof.
  unfold mbind, M_bind. destruct (m t) as [[a|e] t' evs]; cbn; [|reflexivity].
  now destruct (k a t').
Qed.

Lemma try_run m (h : exn -> M A) t :
  try_except m h t =
  match result (m t) with
  | Returned a => Run (Returned a) (clock (m t)) (events (m t))
  | Raised e =>
      let r := h e (clock (m t)) in
      Run (result r) (clock r) (events (m t) ++ events r)
  end.
Proof.
  unfold try_except. destruct (m t) as [[a|e] t' evs]; cbn; [reflexivity|].
  now destruct (h e t').
Qed.

Lemma result_bind m k t :
  result ((m ≫= k) t) =
  match result (m t) with
  | Returned a => result (k a (clock (m t)))
  | Raised e => Raised e
  end.
Proof. rewrite bind_run. now destruct (result (m t)). Qed.

Lemma clock_bind m k t :
  clock ((m ≫= k) t) =
  match result (m t) with
  | Returned a => clock (k a (clock (m t)))
  | Raised _ => clock (m t)
  end.
Proof. rewrite bind_run. now destruct (result (m t)). Qed.

Lemma events_bind m k t :
  events ((m ≫= k) t) =
  match result (m t) with
  | Returned a => events (m t) ++ events (k a (clock (m t)))
  | Raised _ => events (m t)
  end.
Proof. rewrite bind_run. now destruct (result (m t)). Qed.

Lemma result_try m (h : exn -> M A) t :
  result (try_except m h t) =
  match result (m t) with
  | Returned a => Returned a
  | Raised e => result (h e (clock (m t)))
  end.
Proof. rewrite try_run. now destruct (result (m t)). Qed.

Lemma clock_try m (h : exn -> M A) t :
  clock (try_except m h t) =
  match result (m t) with
  | Returned _ => clock (m t)
  | Raised e => clock (h e (clock (m t)))
  end.
Proof. rewrite try_run. now destruct (result (m t)). Qed.

Lemma events_try m (h : exn -> M A) t :
  events (try_except m h t) =
  match result (m t) with
  | Returned _ => events (m t)
  | Raised e => events (m t) ++ events (h e (clock (m t)))
  end.
Proof. rewrite try_run. now destruct (result (m t)). Qed.

Lemma bind_returned m k (t t' : nat) (a : A) (evs : list event) :
  m t = Run (Returned a) t' evs ->
  (m ≫= k) t = Run (result (k a t')) (clock (k a t')) (evs ++ events (k a t')).
Proof. intros E. rewrite bind_run, E. reflexivity. Qed.

Lemma bind_raised m k (t t' : nat) (e : exn) (evs : list event) :
  m t = Run (Raised e) t' evs -> (m ≫= k) t = Run (Raised e) t' evs.
Proof. intros E. rewrite bind_run, E. reflexivity. Qed.

Lemma try_returned m (h : exn -> M A) (t t' : nat) (a : A) (evs : list event) :
  m t = Run (Returned a) t' evs -> try_except m h t = Run (Returned a) t' evs.
Proof. intros E. rewrite try_run, E. reflexivity. Qed.

Lemma try_raised m (h : exn -> M A) (t t' : nat) (e : exn) (evs : list event) :
  m t = Run (Raised e) t' evs ->
  try_except m h t = Run (result (h e t')) (clock (h e t')) (evs ++ events (h e t')).
Proof. intros E. rewrite try_run, E. reflexivity. Qed.

Lemma run_eta (r : run A) : Run (result r) (clock r) (events r) = r.
Proof. now destruct r. Qed.

Lemma mret_bind (x : A) (k : A -> M B) (t : nat) : (mret x ≫= k) t = k x t.
Proof. rewrite bind_run. cbn. now destruct (k x t). Qed.

Lemma index_here (x : A) (l : list A) : index (x :: l) 0 = mret x.
Proof. reflexivity. Qed.

Lemma index_next (x y : A) (l : list A) : index (x :: y :: l) 1 = mret y.
Proof. reflexivity. Qed.

(** A property of every event of the parts holds of every event of the
    whole. *)
Lemma events_bind_Forall (P : event -> Prop) m k t :
  Forall P (events (m t)) ->
  (forall a t', Forall P (events (k a t'))) ->
  Forall P (events ((m ≫= k) t)).
Proof.
  intros Hm Hk. rewrite events_bind.
  destruct (result (m t)); [apply Forall_app; split|]; auto.
Qed.

Lemma events_try_Forall (P : event -> Prop) m (h : exn -> M A) t :
  Forall P (events (m t)) ->
  (forall e t', Forall P (events (h e t'))) ->
  Forall P (events (try_except m h t)).
Proof.
  intros Hm Hh. rewrite events_try.
  destruct (result (m t)); [|apply Forall_app; split]; auto.
Qed.

End RunFacts.

Section AlikeFacts.

Context {A B : Type}.

Lemma alike_refl (r : run A) : alike r r.
Proof. now repeat split. Qed.

Lemma alike_bind (m1 m2 : M A) (k1 k2 : A -> M B) t :
  alike (m1 t) (m2 t) ->
  (forall a t', alike (k1 a t') (k2 a t')) ->
  alike ((m1 ≫= k1) t) ((m2 ≫= k2) t).
Proof.
  intros (Hr & Hc & He) Hk. unfold alike.
  rewrite !result_bind, !clock_bind, !events_bind, <- Hr, <- Hc.
  destruct (result (m1 t)) as [a|e]; [|easy].
  destruct (Hk a (clock (m1 t))) as (Hr' & Hc' & He').
  unfold attempts in *. rewrite !List.filter_app. now rewrite He, He'.
Qed.

Lemma alike_try (m1 m2 : M A) (h1 h2 : exn -> M A) t :
  alike (m1 t) (m2 t) ->
  (forall e t', alike (h1 e t') (h2 e t')) ->
  alike (try_except m1 h1 t) (try_except m2 h2 t).
Proof.
  intros (Hr & Hc & He) Hh. unfold alike.
  rewrite !result_try, !clock_try, !events_try, <- Hr, <- Hc.
  destruct (result (m1 t)) as [a|e]; [easy|].
  destruct (Hh e (clock (m1 t))) as (Hr' & Hc' & He').
  unfold attempts in *. rewrite !List.filter_app. now rewrite He, He'.
Qed.

End AlikeFacts.

Section ChannelFacts.

Variable environ : Environ.
Variable env : Env.

Lemma parse_message_returns (project_name status details : string) (t : nat) :
  PyRepr.has_char "010" project_name = false ->
  PyRepr.has_char "010" status = false ->
  exists v, parse_message (message_of project_name status details) t
            = Run (Returned v) t [].
Proof.
  intros Hn Hs. unfold parse_message, message_of.
  replace ("Webhook for " +:+ project_name +:+ " - Status: " +:+ status +:+ Py.nl
           +:+ "Details: " +:+ details)
    with ((("Webhook for " +:+ project_name) +:+ " - " +:+ ("Status: " +:+ status))
          +:+ Py.nl +:+ ("Details: " +:+ details))
    by (rewrite !app_assoc_s; reflexivity).
  rewrite split_first_line.
  2:{ rewrite !has_char_app, Hn, Hs. reflexivity. }
  rewrite index_here, mret_bind.
  pose proof (split_occurrence " - " ("Webhook for " +:+ project_name)
                ("Status: " +:+ status) ltac:(done)) as Hlen.
  destruct (Py.split " - " (("Webhook for " +:+ project_name) +:+ " - "
                            +:+ "Status: " +:+ status)) as [|i0 [|i1 rest]].
  1,2: simpl in Hlen; lia.
  rewrite index_here, mret_bind, index_next, mret_bind.
  eexists. reflexivity.
Qed.

Lemma parse_message_events (message : string) (t : nat) :
  events (parse_message message t) = [].
Proof.
  unfold parse_message, index.
  destruct (Py.split Py.nl message !! 0) as [line0|]; [|reflexivity].
  rewrite mret_bind.
  destruct (Py.split " - " line0 !! 0) as [info0|]; [|reflexivity].
  rewrite mret_bind.
  destruct (Py.split " - " line0 !! 1) as [info1|]; [|reflexivity].
  now rewrite mret_bind.
Qed.

Lemma parse_message_clock (message : string) (t : nat) :
  clock (parse_message message t) = t.
Proof.
  unfold parse_message, index.
  destruct (Py.split Py.nl message !! 0) as [line0|]; [|reflexivity].
  rewrite mret_bind.
  destruct (Py.split " - " line0 !! 0) as [info0|]; [|reflexivity].
  rewrite mret_bind.
  destruct (Py.split " - " line0 !! 1) as [info1|]; [|reflexivity].
  now rewrite mret_bind.
Qed.

(** The guarded POST of a chat backend (lines 139-145 and 178-184) always
    returns, and its only event besides the log line is the POST. *)
Lemma post_block (url : string) (payload : json) (headers : list (string * string))
    (sent failed : string) (t : nat) :
  exists lvl msg,
    try_except (post env url payload headers;; logger INFO sent)
      (fun e => logger ERROR (failed +:+ str_exn e)) t
    = Run (Returned ()) (S t) [Post url payload headers; Log lvl msg].
Proof.
  unfold try_except, post, ask, emit, logger, emit, raise, mbind, M_bind, mret, M_ret.
  cbn. destruct (post_fault env t url payload); cbn; eauto.
Qed.

(** The SMTP conversation of lines 73-80 always returns. *)
Lemma send_email_result (to_email subject body : string) (t : nat) :
  result (send_email environ env to_email subject body t) = Returned ().
Proof.
  unfold send_email.
  destruct (negb _); [reflexivity|].
  unfold try_except, smtp_call, ask, emit, logger, emit, raise, mbind, M_bind, mret, M_ret.
  cbn. destruct (smtp_fault env t _) as [[[] text]|]; reflexivity.
Qed.

Lemma send_email_quiet (to_email subject body : string) (t : nat) :
  Forall quiet (events (send_email environ env to_email subject body t)).
Proof.
  unfold send_email.
  destruct (negb _); [repeat constructor|].
  unfold try_except, smtp_call, ask, emit, logger, emit, raise, mbind, M_bind, mret, M_ret.
  cbn. destruct (smtp_fault env t _) as [[[] text]|]; repeat constructor.
Qed.


Lemma send_slack_result (project_name status details webhook_url : string) (t : nat) :
  one_line project_name -> one_line status ->
  result (send_slack environ env (message_of project_name status details) webhook_url t)
  = Returned ().
Proof.
  intros Hn Hs. unfold send_slack.
  destruct (_ || _); [reflexivity|].
  destruct (parse_message_returns project_name status details t Hn Hs)
    as [[[p s] d] Hp].
  rewrite result_bind, Hp. cbn [result clock].
  rewrite result_bind. cbn [now ask result clock].
  edestruct post_block as (lvl & msg & ->). reflexivity.
Qed.

Lemma send_slack_quiet (message webhook_url : string) (t : nat) :
  Forall quiet (events (send_slack environ env message webhook_url t)).
Proof.
  unfold send_slack.
  destruct (_ || _); [repeat constructor|].
  apply events_bind_Forall; [rewrite parse_message_events; constructor|].
  intros [[p s] d] t'.
  apply events_bind_Forall; [constructor|].
  intros ts t''. edestruct post_block as (lvl & msg & ->). repeat constructor.
Qed.

Lemma send_mattermost_result (project_name status details webhook_url : string)
    (t : nat) :
  one_line project_name -> one_line status ->
  result (send_mattermost env (message_of project_name status details) webhook_url t)
  = Returned ().
Proof.
  intros Hn Hs. unfold send_mattermost.
  destruct (negb _); [reflexivity|].
  destruct (parse_message_returns project_name status details t Hn Hs)
    as [[[p s] d] Hp].
  rewrite result_bind, Hp. cbn [result clock].
  rewrite result_bind. cbn [now ask result clock].
  edestruct post_block as (lvl & msg & ->). reflexivity.
Qed.

Lemma send_mattermost_quiet (message webhook_url : string) (t : nat) :
  Forall quiet (events (send_mattermost env message webhook_url t)).
Proof.
  unfold send_mattermost.
  destruct (negb _); [repeat constructor|].
  apply events_bind_Forall; [rewrite parse_message_events; constructor|].
  intros [[p s] d] t'.
  apply events_bind_Forall; [constructor|].
  intros ts t''. edestruct post_block as (lvl & msg & ->). repeat constructor.
Qed.

Lemma send_notifications_quiet (project_name status details : string)
    (notifications : option (gmap string string)) (t : nat) :
  Forall quiet (events (send_notifications environ env project_name status details
                          notifications t)).
Proof.
  unfold send_notifications.
  apply events_bind_Forall; [repeat constructor|]. intros _ t1.
  apply events_bind_Forall; [destruct notifications; constructor|]. intros email t2.
  apply events_bind_Forall;
    [destruct (Py.truthy email); [apply send_email_quiet | constructor]|].
  intros _ t3.
  apply events_bind_Forall; [destruct notifications; constructor|]. intros slack t4.
  apply events_bind_Forall;
    [destruct (Py.truthy slack); [apply send_slack_quiet | constructor]|].
  intros _ t5.
  apply events_bind_Forall; [destruct notifications; constructor|]. intros mm t6.
  destruct (Py.truthy mm); [apply send_mattermost_quiet | constructor].
Qed.

(** With a mapping of targets and a one-line project name and status, the
    dispatch returns. *)
Lemma send_notifications_result (project_name status details : string)
    (targets : gmap string string) (t : nat) :
  one_line project_name -> one_line status ->
  result (send_notifications environ env project_name status details (Some targets) t)
  = Returned ().
Proof.
  intros Hn Hs. unfold send_notifications.
  fold (message_of project_name status details).
  rewrite result_bind. cbn [emit result clock].
  rewrite result_bind. cbn [notifications_get mret M_ret result clock].
  rewrite result_bind.
  assert (forall (c : bool) (m : M unit) t',
            result (m t') = Returned () ->
            result ((if c then m else mret ()) t') = Returned ()) as Hif.
  { intros [] m t' Hm; [exact Hm | reflexivity]. }
  rewrite Hif by apply send_email_result.
  rewrite result_bind. cbn [notifications_get mret M_ret result clock].
  rewrite result_bind.
  rewrite Hif by now apply send_slack_result.
  rewrite result_bind. cbn [notifications_get mret M_ret result clock].
  apply Hif. now apply send_mattermost_result.
Qed.

Lemma send_notifications_first (project_name status details : string)
    (notifications : option (gmap string string)) (t : nat) :
  exists rest,
    events (send_notifications environ env project_name status details notifications t)
    = Dispatch project_name status details :: rest.
Proof.
  unfold send_notifications. rewrite events_bind. cbn [emit result clock events].
  eexists. reflexivity.
Qed.
End ChannelFacts.

(** ** Facts about the signature check and the command loop *)

Section PipelineFacts.

Variable environ : Environ.
Variable env : Env.

Lemma hex_digit_ascii (n : Z) : (Py.code (SHA256.hex_digit n) <? 128)%Z = true.
Proof.
  unfold SHA256.hex_digit. generalize (Z.to_nat (Z.land n 15)). intros i.
  do 16 (destruct i as [|i]; [reflexivity|]). now destruct i.
Qed.

Lemma hex_isascii (bs : list Z) : Py.isascii (SHA256.hex bs) = true.
Proof.
  induction bs as [|b bs IH]; [reflexivity|].
  cbn [SHA256.hex Py.isascii]. now rewrite !hex_digit_ascii, IH.
Qed.

Lemma expected_signature_isascii (secret_token body : string) :
  Py.isascii (expected_signature secret_token body) = true.
Proof.
  unfold expected_signature, SHA256.hmac_hexdigest.
  cbn [String.append Py.isascii]. rewrite hex_isascii. reflexivity.
Qed.

(** What the signature check does, case by case. It has no event and
    asks no oracle. *)
Lemma validate_signature_run (request : Request) (secret_token : string) (t : nat) :
  validate_signature request secret_token t =
  Run (match signature_header request with
       | None => Raised (HTTPException 401 "Signature header missing")
       | Some signature =>
           if Py.isascii signature
           then if String.eqb (expected_signature secret_token (body request)) signature
                then Returned ()
                else Raised (HTTPException 401 "Invalid signature")
           else Raised (Error "TypeError"
                          "comparing strings with non-ASCII characters is not supported")
       end) t [].
Proof.
  unfold validate_signature, compare_digest.
  destruct (signature_header request) as [signature|]; [|reflexivity].
  rewrite expected_signature_isascii. cbn [andb].
  destruct (Py.isascii signature); [|reflexivity].
  rewrite mret_bind.
  now destruct (String.eqb _ signature).
Qed.

Lemma check_output_run (command : list string) (cwd : string) (t : nat) :
  check_output env command cwd t =
  Run (match child env t command cwd with
       | Exited 0 output => Returned output
       | r => match failure env command r with
              | Some e => Raised e
              | None => Returned ""
              end
       end) (S t) [Exec command cwd].
Proof.
  unfold check_output, ask, emit, raise, mbind, M_bind, mret, M_ret. cbn.
  destruct (child env t command cwd) as [[|rc|rc] out|kind text]; reflexivity.
Qed.

Lemma run_commands_success (cwd : string) (cmds : list (list string)) :
  forall (outs acc : list string) (t : nat),
    succeed_from env cwd t cmds outs ->
    run_commands env cmds cwd acc t
    = Run (Returned (acc ++ zip_with label cmds outs)) (t + length cmds)
        (started cwd cmds).
Proof.
  induction cmds as [|c cs IH]; intros outs acc t Hok.
  - destruct outs; [|contradiction]. cbn. now rewrite app_nil_r, Nat.add_0_r.
  - destruct outs as [|o os]; [contradiction|]. destruct Hok as [Hc Hcs].
    cbn [run_commands].
    erewrite bind_returned by reflexivity.
    erewrite bind_returned by (rewrite check_output_run, Hc; reflexivity).
    rewrite (IH os _ _ Hcs). cbn [result clock events length].
    rewrite <- app_assoc, Nat.add_succ_r. reflexivity.
Qed.

Lemma run_commands_failure (cwd : string) (c : list string) (post : list (list string))
    (e : exn) (pre : list (list string)) :
  forall (outs acc : list string) (t : nat),
    succeed_from env cwd t pre outs ->
    failure env c (child env (t + length pre) c cwd) = Some e ->
    run_commands env (pre ++ c :: post) cwd acc t
    = Run (Raised e) (S (t + length pre)) (started cwd (pre ++ [c])).
Proof.
  induction pre as [|p pre IH]; intros outs acc t Hok Hfail.
  - cbn [app run_commands length] in *. rewrite Nat.add_0_r in *.
    erewrite bind_returned by reflexivity.
    erewrite bind_raised; [reflexivity|].
    rewrite check_output_run.
    destruct (child env t c cwd) as [[|rc|rc] out|kind text]; cbn in Hfail |- *;
      now inversion Hfail.
  - destruct outs as [|o os]; [contradiction|]. destruct Hok as [Hc Hcs].
    cbn [app run_commands length] in *.
    erewrite bind_returned by reflexivity.
    erewrite bind_returned by (rewrite check_output_run, Hc; reflexivity).
    rewrite Nat.add_succ_r in Hfail.
    rewrite (IH os _ _ Hcs Hfail). cbn [result clock events].
    now rewrite Nat.add_succ_r.
Qed.

End PipelineFacts.

(** ** Only plain errors leave the dispatch and the command loop *)

Section Tame.

Variable environ : Environ.
Variable env : Env.

Lemma tame_bind {A B : Type} (m : M A) (k : A -> M B) (t : nat) :
  tame (m t) -> (forall a t', tame (k a t')) -> tame ((m ≫= k) t).
Proof.
  unfold tame. intros Hm Hk. rewrite result_bind.
  destruct (result (m t)) as [a|e]; [apply Hk | exact Hm].
Qed.

Lemma tame_returned {A : Type} (r : run A) (a : A) : result r = Returned a -> tame r.
Proof. unfold tame. now intros ->. Qed.

Lemma parse_message_tame (message : string) (t : nat) : tame (parse_message message t).
Proof.
  unfold parse_message, index.
  destruct (Py.split Py.nl message !! 0) as [line0|]; [|exact I].
  rewrite mret_bind.
  destruct (Py.split " - " line0 !! 0) as [info0|]; [|exact I].
  rewrite mret_bind.
  destruct (Py.split " - " line0 !! 1) as [info1|]; [|exact I].
  now rewrite mret_bind.
Qed.

Lemma send_slack_tame (message webhook_url : string) (t : nat) :
  tame (send_slack environ env message webhook_url t).
Proof.
  unfold send_slack. destruct (_ || _); [exact I|].
  apply tame_bind; [apply parse_message_tame|]. intros [[p s] d] t'.
  apply tame_bind; [exact I|]. intros ts t''.
  edestruct post_block as (lvl & msg & ->). exact I.
Qed.

Lemma send_mattermost_tame (message webhook_url : string) (t : nat) :
  tame (send_mattermost env message webhook_url t).
Proof.
  unfold send_mattermost. destruct (negb _); [exact I|].
  apply tame_bind; [apply parse_message_tame|]. intros [[p s] d] t'.
  apply tame_bind; [exact I|]. intros ts t''.
  edestruct post_block as (lvl & msg & ->). exact I.
Qed.

Lemma send_notifications_tame (project_name status details : string)
    (notifications : option (gmap string string)) (t : nat) :
  tame (send_notifications environ env project_name status details notifications t).
Proof.
  unfold send_notifications.
  apply tame_bind; [exact I|]. intros _ t1.
  apply tame_bind; [now destruct notifications|]. intros email t2.
  apply tame_bind.
  { destruct (Py.truthy email); [|exact I].
    eapply tame_returned, send_email_result. }
  intros _ t3.
  apply tame_bind; [now destruct notifications|]. intros slack t4.
  apply tame_bind; [destruct (Py.truthy slack); [apply send_slack_tame | exact I]|].
  intros _ t5.
  apply tame_bind; [now destruct notifications|]. intros mm t6.
  destruct (Py.truthy mm); [apply send_mattermost_tame | exact I].
Qed.

Lemma check_output_tame (command : list string) (cwd : string) (t : nat) :
  tame (check_output env command cwd t).
Proof.
  rewrite check_output_run. unfold tame. cbn [result].
  destruct (child env t command cwd) as [[|rc|rc] out|kind text]; exact I.
Qed.

Lemma run_commands_tame (cwd : string) (cmds : list (list string)) :
  forall (acc : list string) (t : nat), tame (run_commands env cmds cwd acc t).
Proof.
  induction cmds as [|c cs IH]; intros acc t; [exact I|].
  cbn [run_commands].
  apply tame_bind; [exact I|]. intros _ t1.
  apply tame_bind; [apply check_output_tame|]. intros out t2. apply IH.
Qed.

End Tame.

(** ** The three ways through the pipeline *)

Section Scenarios.

Variable environ : Environ.
Variable env : Env.

Lemma validate_signature_valid (request : Request) (pc : ProjectConfig) (t : nat) :
  valid_signature request pc ->
  validate_signature request (secret_token pc) t = Run (Returned ()) t [].
Proof.
  intros Hv. rewrite validate_signature_run, Hv, expected_signature_isascii.
  now rewrite String.eqb_refl.
Qed.

Lemma except_clauses_error (pc : ProjectConfig) (kind text : string) (t : nat) :
  let r := send_notifications environ env (name pc) "Failed" text (notifications pc) t in
  except_clauses environ env pc (Error kind text) t
  = Run (match result r with
         | Returned _ => Raised (HTTPException 500 text)
         | Raised e => Raised e
         end)
      (clock r)
      (Log ERROR ("Error processing webhook for " +:+ name pc +:+ ": " +:+ text)
       :: events r).
Proof.
  intros r. unfold except_clauses. cbn [str_exn].
  erewrite bind_returned by reflexivity.
  rewrite bind_run. fold r. destruct (result r); cbn; now rewrite ?app_nil_r.
Qed.

(** The request is authentic, its payload is an object, and the branch
    filter lets it through or not. *)
Lemma try_body_ignored (request : Request) (pc : ProjectConfig)
    (members : list (string * json)) (t : nat) :
  valid_signature request pc ->
  json_body request = inr (JObj members) ->
  differs (assoc "ref" members) (target_branch pc) = true ->
  let r := send_notifications environ env (name pc) "Ignored"
             ("Push was not to the target branch " +:+ target_branch pc +:+ ".")
             (notifications pc) t in
  try_body environ env request pc t
  = Run (match result r with
         | Returned _ =>
             Returned (inl [("message", "Push was not to the target branch, ignoring.")])
         | Raised e => Raised e
         end)
      (clock r) (Log INFO ("Received webhook for project " +:+ name pc) :: events r).
Proof.
  intros Hv Hj Hd r. unfold try_body.
  erewrite bind_returned by (apply validate_signature_valid, Hv).
  unfold request_json. rewrite Hj, mret_bind.
  erewrite bind_returned by reflexivity.
  cbn [payload_get]. rewrite mret_bind, Hd.
  rewrite bind_run. fold r. destruct (result r); cbn; now rewrite ?app_nil_r.
Qed.

Lemma try_body_runs (request : Request) (pc : ProjectConfig)
    (members : list (string * json)) (t : nat) :
  valid_signature request pc ->
  json_body request = inr (JObj members) ->
  differs (assoc "ref" members) (target_branch pc) = false ->
  let r := run_commands env (commands pc) (directory pc) [] t in
  try_body environ env request pc t
  = Run (match result r with
         | Returned command_outputs =>
             Returned (inr ("Success", Py.join Py.nl command_outputs))
         | Raised e => Raised e
         end)
      (clock r) (Log INFO ("Received webhook for project " +:+ name pc) :: events r).
Proof.
  intros Hv Hj Hd r. unfold try_body.
  erewrite bind_returned by (apply validate_signature_valid, Hv).
  unfold request_json. rewrite Hj, mret_bind.
  erewrite bind_returned by reflexivity.
  cbn [payload_get]. rewrite mret_bind, Hd.
  rewrite bind_run. fold r. destruct (result r); cbn; now rewrite ?app_nil_r.
Qed.

Lemma process_webhook_ignored (request : Request) (pc : ProjectConfig)
    (members : list (string * json)) (t : nat) :
  valid_signature request pc ->
  json_body request = inr (JObj members) ->
  differs (assoc "ref" members) (target_branch pc) = true ->
  let r := send_notifications environ env (name pc) "Ignored"
             ("Push was not to the target branch " +:+ target_branch pc +:+ ".")
             (notifications pc) t in
  result r = Returned () ->
  process_webhook environ env request pc t
  = Run (Returned [("message", "Push was not to the target branch, ignoring.")])
      (clock r) (Log INFO ("Received webhook for project " +:+ name pc) :: events r).
Proof.
  intros Hv Hj Hd r Hr. unfold process_webhook.
  erewrite bind_returned.
  2:{ rewrite try_run, (try_body_ignored _ _ _ _ Hv Hj Hd).
      fold r. rewrite Hr. cbn [result clock events]. reflexivity. }
  cbn. now rewrite app_nil_r.
Qed.

Lemma process_webhook_success (request : Request) (pc : ProjectConfig)
    (members : list (string * json)) (outs : list string) (t : nat) :
  valid_signature request pc ->
  json_body request = inr (JObj members) ->
  differs (assoc "ref" members) (target_branch pc) = false ->
  succeed_from env (directory pc) t (commands pc) outs ->
  let details := Py.join Py.nl (zip_with label (commands pc) outs) in
  let r := send_notifications environ env (name pc) "Success" details
             (notifications pc) (t + length (commands pc)) in
  result r = Returned () ->
  process_webhook environ env request pc t
  = Run (Returned [("message", "Webhook received and processed for " +:+ name pc);
                   ("status", "Success"); ("details", details)])
      (clock r)
      (Log INFO ("Received webhook for project " +:+ name pc)
       :: started (directory pc) (commands pc) ++ events r).
Proof.
  intros Hv Hj Hd Hok details r Hr. unfold process_webhook.
  erewrite bind_returned.
  2:{ rewrite try_run, (try_body_runs _ _ _ _ Hv Hj Hd).
      rewrite (run_commands_success env _ _ _ _ _ Hok).
      cbn [result clock events]. reflexivity. }
  cbn [app]. erewrite bind_returned.
  2:{ rewrite <- (run_eta (send_notifications _ _ _ _ _ _ _)).
      fold details. fold r. rewrite Hr. reflexivity. }
  cbn. now rewrite app_nil_r.
Qed.

Lemma process_webhook_failure (request : Request) (pc : ProjectConfig)
    (members : list (string * json)) (pre post : list (list string))
    (c : list string) (outs : list string) (e : exn) (t : nat) :
  valid_signature request pc ->
  json_body request = inr (JObj members) ->
  differs (assoc "ref" members) (target_branch pc) = false ->
  commands pc = pre ++ c :: post ->
  succeed_from env (directory pc) t pre outs ->
  failure env c (child env (t + length pre) c (directory pc)) = Some e ->
  let r := send_notifications environ env (name pc) "Failed" (str_exn e)
             (notifications pc) (S (t + length pre)) in
  process_webhook environ env request pc t
  = Run (match result r with
         | Returned _ => Raised (HTTPException 500 (str_exn e))
         | Raised e' => Raised e'
         end)
      (clock r)
      (Log INFO ("Received webhook for project " +:+ name pc)
       :: started (directory pc) (pre ++ [c])
       ++ Log ERROR ("Error processing webhook for " +:+ name pc +:+ ": " +:+ str_exn e)
       :: events r).
Proof.
  intros Hv Hj Hd Hc Hok Hf r. unfold process_webhook.
  assert (exists kind text, e = Error kind text) as (kind & text & ->).
  { destruct (child _ _ _ _) as [[|rc|rc] out|kind text]; cbn in Hf;
      inversion Hf; eauto. }
  rewrite bind_run, try_run, (try_body_runs _ _ _ _ Hv Hj Hd), Hc.
  rewrite (run_commands_failure env _ _ _ _ _ _ _ _ Hok Hf).
  cbn [result clock events]. rewrite except_clauses_error.
  subst r. cbn [result clock events str_exn].
  destruct (result (send_notifications _ _ _ _ _ _ _)); reflexivity.
Qed.

End Scenarios.

(** ** Which runs dispatch *)

Section Dispatching.

Variable environ : Environ.
Variable env : Env.

Lemma send_notifications_dispatches (project_name status details : string)
    (notifications : option (gmap string string)) (t : nat) :
  Dispatch project_name status details
  ∈ events (send_notifications environ env project_name status details notifications t).
Proof.
  destruct (send_notifications_first environ env project_name status details
              notifications t) as [rest ->].
  apply list_elem_of_here.
Qed.

Lemma tame_status {A : Type} (r : run A) :
  tame r -> http_status (result r) = 200%Z \/ http_status (result r) = 500%Z.
Proof. unfold tame. destruct (result r) as [a|[c d|k x]]; tauto. Qed.

(** The body of the [try] after the signature check. *)
Lemma try_body_cases (request : Request) (pc : ProjectConfig) (t : nat) :
  let b := try_body environ env request pc t in
  match result (validate_signature request (secret_token pc) t) with
  | Raised e => b = Run (Raised e) t []
  | Returned _ =>
      tame b
      /\ forall early, result b = Returned (inl early) ->
           exists details, Dispatch (name pc) "Ignored" details ∈ events b
  end.
Proof.
  intros b. subst b. unfold try_body.
  rewrite bind_run, validate_signature_run. cbn [result clock events app].
  set (v := match signature_header request with Some _ => _ | None => _ end).
  destruct v as [[]|e]; [|reflexivity].
  rewrite run_eta.
  unfold request_json. destruct (json_body request) as [text|payload].
  { rewrite bind_run. cbn. split; [exact I|]. intros early H. discriminate H. }
  rewrite mret_bind, bind_run. cbn [logger emit result clock events].
  destruct payload as [| | | | | |members];
    try (rewrite bind_run; cbn; split; [exact I|]; intros early H; discriminate H).
  cbn [payload_get]. rewrite mret_bind.
  destruct (differs _ _).
  - pose proof (send_notifications_tame environ env (name pc) "Ignored"
                  ("Push was not to the target branch " +:+ target_branch pc +:+ ".")
                  (notifications pc) t) as Ht.
    pose proof (send_notifications_dispatches (name pc) "Ignored"
                  ("Push was not to the target branch " +:+ target_branch pc +:+ ".")
                  (notifications pc) t) as Hd.
    rewrite bind_run. unfold tame in *.
    destruct (result (send_notifications _ _ _ _ _ _ _)) as [[]|e];
      cbn [result clock events mret M_ret].
    + split; [exact I|]. intros early _. eexists.
      apply list_elem_of_further, elem_of_app. left. exact Hd.
    + split; [exact Ht|]. intros early H. discriminate H.
  - pose proof (run_commands_tame env (directory pc) (commands pc) [] t) as Ht.
    rewrite bind_run. unfold tame in *.
    destruct (result (run_commands _ _ _ _ _)) as [outs|e];
      cbn [result clock events mret M_ret].
    + split; [exact I|]. intros early H. discriminate H.
    + split; [exact Ht|]. intros early H. discriminate H.
Qed.

Lemma process_webhook_unauthenticated (request : Request) (pc : ProjectConfig)
    (t : nat) (status_code : Z) (detail : string) :
  result (validate_signature request (secret_token pc) t)
  = Raised (HTTPException status_code detail) ->
  process_webhook environ env request pc t
  = Run (Raised (HTTPException status_code detail)) t [].
Proof.
  intros Hv. pose proof (try_body_cases request pc t) as Hb. rewrite Hv in Hb.
  unfold process_webhook. rewrite bind_run, try_run, Hb. reflexivity.
Qed.

(** What follows an error caught at line 228. *)
Lemma process_webhook_caught (request : Request) (pc : ProjectConfig) (t : nat)
    (kind text : string) :
  result (try_body environ env request pc t) = Raised (Error kind text) ->
  let r := process_webhook environ env request pc t in
  http_status (result r) = 500%Z /\ Dispatch (name pc) "Failed" text ∈ events r.
Proof.
  intros Hb r. subst r. unfold process_webhook.
  rewrite bind_run, try_run, Hb. cbn zeta. rewrite except_clauses_error.
  cbn [result clock events].
  pose proof (send_notifications_tame environ env (name pc) "Failed" text
                (notifications pc) (clock (try_body environ env request pc t))) as Ht.
  pose proof (send_notifications_dispatches (name pc) "Failed" text
                (notifications pc) (clock (try_body environ env request pc t))) as Hd.
  unfold tame in Ht.
  destruct (result (send_notifications _ _ _ _ _ _ _)) as [[]|[c d|k x]];
    [|contradiction|]; cbn [result clock events http_status];
    (split; [reflexivity|]); apply elem_of_app; right;
    apply list_elem_of_further; exact Hd.
Qed.

(** Past the signature check, whatever happens, the response is a 200 or
    a 500, and a dispatch for the project was entered. *)
Lemma process_webhook_authenticated (request : Request) (pc : ProjectConfig) (t : nat) :
  tame (validate_signature request (secret_token pc) t) ->
  let r := process_webhook environ env request pc t in
  (http_status (result r) = 200%Z \/ http_status (result r) = 500%Z)
  /\ exists status details, Dispatch (name pc) status details ∈ events r.
Proof.
  intros Hv r.
  pose proof (try_body_cases request pc t) as Hb. cbn zeta in Hb.
  unfold tame in Hv.
  destruct (result (validate_signature request (secret_token pc) t))
    as [[]|[c d|kind text]] eqn:E; [| contradiction |].
  - destruct Hb as [Htame Hearly].
    destruct (result (try_body environ env request pc t))
      as [[early|[status details]]|[c d|kind text]] eqn:Eb.
    + destruct (Hearly early eq_refl) as [details Hd].
      subst r. unfold process_webhook. rewrite bind_run, try_run, Eb.
      cbn [result clock events mret M_ret http_status].
      split; [now left|]. exists "Ignored", details. now rewrite app_nil_r.
    + pose proof (send_notifications_tame environ env (name pc) status details
                    (notifications pc) (clock (try_body environ env request pc t)))
        as Ht.
      pose proof (send_notifications_dispatches (name pc) status details
                    (notifications pc) (clock (try_body environ env request pc t)))
        as Hd.
      subst r. unfold process_webhook. rewrite bind_run, try_run, Eb.
      cbn [result clock events]. rewrite bind_run. unfold tame in Ht.
      destruct (result (send_notifications _ _ _ _ _ _ _)) as [[]|[c d|k x]];
        [|contradiction|]; cbn [result clock events mret M_ret http_status];
        (split; [tauto|]); exists status, details;
        apply elem_of_app; right; rewrite ?app_nil_r; exact Hd.
    + unfold tame in Htame. rewrite Eb in Htame. contradiction.
    + destruct (process_webhook_caught request pc t kind text Eb) as [Hs Hd].
      split; [now right|]. now exists "Failed", text.
  - assert (result (try_body environ env request pc t) = Raised (Error kind text))
      as Eb by now rewrite Hb.
    destruct (process_webhook_caught request pc t kind text Eb) as [Hs Hd].
    split; [now right|]. now exists "Failed", text.
Qed.

End Dispatching.

(** ** Two worlds that differ only in how deliveries go *)

Section TwoWorlds.

Variable environ : Environ.
Variable PROJECTS : gmap string raw_config.
Variables env1 env2 : Env.

Hypothesis same_children :
  forall t command cwd, child env1 t command cwd = child env2 t command cwd.
Hypothesis same_clock : forall t, strftime_now env1 t = strftime_now env2 t.
Hypothesis same_signals : forall n, signal_repr env1 n = signal_repr env2 n.

Lemma send_email_alike (to_email subject body : string) (t : nat) :
  alike (send_email environ env1 to_email subject body t)
        (send_email environ env2 to_email subject body t).
Proof.
  unfold send_email.
  destruct (negb _); [apply alike_refl|].
  unfold alike, try_except, smtp_call, ask, emit, logger, emit, raise,
    mbind, M_bind, mret, M_ret.
  cbn.
  destruct (smtp_fault env1 t _) as [[[] text1]|];
    destruct (smtp_fault env2 t _) as [[[] text2]|]; cbn; auto.
Qed.

Lemma post_block_alike (url : string) (payload : json)
    (headers : list (string * string)) (sent failed : string) (t : nat) :
  alike (try_except (post env1 url payload headers;; logger INFO sent)
           (fun e => logger ERROR (failed +:+ str_exn e)) t)
        (try_except (post env2 url payload headers;; logger INFO sent)
           (fun e => logger ERROR (failed +:+ str_exn e)) t).
Proof.
  destruct (post_block env1 url payload headers sent failed t) as (l1 & m1 & ->).
  destruct (post_block env2 url payload headers sent failed t) as (l2 & m2 & ->).
  now repeat split.
Qed.

Lemma now_alike (t : nat) : alike (now env1 t) (now env2 t).
Proof. unfold now, ask. rewrite same_clock. apply alike_refl. Qed.

Lemma send_slack_alike (message webhook_url : string) (t : nat) :
  alike (send_slack environ env1 message webhook_url t)
        (send_slack environ env2 message webhook_url t).
Proof.
  unfold send_slack. destruct (_ || _); [apply alike_refl|].
  apply alike_bind; [apply alike_refl|]. intros [[p s] d] t'.
  apply alike_bind; [apply now_alike|]. intros ts t''.
  apply post_block_alike.
Qed.

Lemma send_mattermost_alike (message webhook_url : string) (t : nat) :
  alike (send_mattermost env1 message webhook_url t)
        (send_mattermost env2 message webhook_url t).
Proof.
  unfold send_mattermost. destruct (negb _); [apply alike_refl|].
  apply alike_bind; [apply alike_refl|]. intros [[p s] d] t'.
  apply alike_bind; [apply now_alike|]. intros ts t''.
  apply post_block_alike.
Qed.

Lemma send_notifications_alike (project_name status details : string)
    (notifications : option (gmap string string)) (t : nat) :
  alike (send_notifications environ env1 project_name status details notifications t)
        (send_notifications environ env2 project_name status details notifications t).
Proof.
  unfold send_notifications.
  apply alike_bind; [apply alike_refl|]. intros _ t1.
  apply alike_bind; [apply alike_refl|]. intros email t2.
  apply alike_bind;
    [destruct (Py.truthy email); [apply send_email_alike | apply alike_refl]|].
  intros _ t3.
  apply alike_bind; [apply alike_refl|]. intros slack t4.
  apply alike_bind;
    [destruct (Py.truthy slack); [apply send_slack_alike | apply alike_refl]|].
  intros _ t5.
  apply alike_bind; [apply alike_refl|]. intros mm t6.
  destruct (Py.truthy mm); [apply send_mattermost_alike | apply alike_refl].
Qed.

Lemma check_output_same (command : list string) (cwd : string) (t : nat) :
  check_output env1 command cwd t = check_output env2 command cwd t.
Proof.
  rewrite !check_output_run, same_children.
  destruct (child env2 t command cwd) as [[|rc|rc] out|kind text]; try reflexivity;
    cbn [failure]; unfold str_CalledProcessError; now rewrite same_signals.
Qed.

Lemma run_commands_same (cwd : string) (cmds : list (list string)) :
  forall (acc : list string) (t : nat),
    run_commands env1 cmds cwd acc t = run_commands env2 cmds cwd acc t.
Proof.
  induction cmds as [|c cs IH]; intros acc t; [reflexivity|].
  cbn [run_commands]. rewrite !bind_run. cbn [logger emit result clock events].
  rewrite ?bind_run, check_output_same.
  destruct (result (check_output env2 c cwd t)); [|reflexivity].
  now rewrite IH.
Qed.

Lemma try_body_alike (request : Request) (pc : ProjectConfig) (t : nat) :
  alike (try_body environ env1 request pc t) (try_body environ env2 request pc t).
Proof.
  unfold try_body.
  apply alike_bind; [apply alike_refl|]. intros _ t1.
  apply alike_bind; [apply alike_refl|]. intros payload t2.
  apply alike_bind; [apply alike_refl|]. intros _ t3.
  apply alike_bind; [apply alike_refl|]. intros ref t4.
  destruct (differs _ _).
  - apply alike_bind; [apply send_notifications_alike|]. intros _ t5.
    apply alike_refl.
  - apply alike_bind; [rewrite run_commands_same; apply alike_refl|].
    intros outs t5. apply alike_refl.
Qed.

Lemma except_clauses_alike (pc : ProjectConfig) (e : exn) (t : nat) :
  alike (except_clauses environ env1 pc e t) (except_clauses environ env2 pc e t).
Proof.
  unfold except_clauses. destruct e as [c d|kind text]; [apply alike_refl|].
  apply alike_bind; [apply alike_refl|]. intros _ t1.
  apply alike_bind; [apply send_notifications_alike|]. intros _ t2.
  apply alike_refl.
Qed.

Lemma process_webhook_alike (request : Request) (pc : ProjectConfig) (t : nat) :
  alike (process_webhook environ env1 request pc t)
        (process_webhook environ env2 request pc t).
Proof.
  unfold process_webhook.
  apply alike_bind.
  - apply alike_try; [apply try_body_alike|]. intros e t'.
    apply except_clauses_alike.
  - intros [early|[status details]] t'; [apply alike_refl|].
    apply alike_bind; [apply send_notifications_alike|]. intros _ t''.
    apply alike_refl.
Qed.

Lemma webhook_handler_alike (request : Request) (project_name : string) (t : nat) :
  alike (webhook_handler environ PROJECTS env1 request project_name t)
        (webhook_handler environ PROJECTS env2 request project_name t).
Proof.
  unfold webhook_handler.
  destruct (resolve PROJECTS project_name); [apply alike_refl|].
  apply process_webhook_alike.
Qed.

End TwoWorlds.

(** ** What each channel does when it is configured *)

Section Deliveries.

Variable environ : Environ.
Variable env : Env.

Lemma send_email_connects (to_email subject body : string) (t : nat) :
  smtp_complete environ = true ->
  SmtpConnect (default "" (SMTP_SERVER environ)) (default 587%Z (SMTP_PORT environ))
  ∈ events (send_email environ env to_email subject body t).
Proof.
  intros Hc. unfold send_email. unfold smtp_complete in Hc.
  unfold EMAIL_CONFIG. cbn [smtp_server smtp_user smtp_password from_email smtp_port].
  rewrite Hc. cbn [negb].
  unfold try_except, smtp_call, ask, emit, logger, emit, raise, mbind, M_bind,
    mret, M_ret.
  cbn. destruct (smtp_fault env t _) as [[[] text]|]; apply list_elem_of_here.
Qed.

Lemma send_slack_posts (project_name status details webhook_url : string) (t : nat) :
  one_line project_name -> one_line status ->
  Py.truthy (SLACK_TOKEN environ) = true -> webhook_url <> "" ->
  posted webhook_url
    (events (send_slack environ env (message_of project_name status details)
               webhook_url t)).
Proof.
  intros Hn Hs Htok Hurl. unfold send_slack. rewrite Htok.
  destruct webhook_url as [|u url]; [done|]. cbn [Py.truthy negb orb].
  destruct (parse_message_returns project_name status details t Hn Hs)
    as [[[p s] d] Hp].
  erewrite bind_returned by exact Hp. cbn [events app].
  rewrite events_bind. cbn [now ask result clock events app].
  edestruct post_block as (lvl & msg & ->). cbn [events].
  eexists _, _. apply list_elem_of_here.
Qed.

Lemma send_mattermost_posts (project_name status details webhook_url : string)
    (t : nat) :
  one_line project_name -> one_line status -> webhook_url <> "" ->
  posted webhook_url
    (events (send_mattermost env (message_of project_name status details)
               webhook_url t)).
Proof.
  intros Hn Hs Hurl. unfold send_mattermost.
  destruct webhook_url as [|u url]; [done|]. cbn [Py.truthy negb].
  destruct (parse_message_returns project_name status details t Hn Hs)
    as [[[p s] d] Hp].
  erewrite bind_returned by exact Hp. cbn [events app].
  rewrite events_bind. cbn [now ask result clock events app].
  edestruct post_block as (lvl & msg & ->). cbn [events].
  eexists _, _. apply list_elem_of_here.
Qed.

(** The dispatch as the sequence of its three guarded sends. *)
Lemma send_notifications_run (project_name status details : string)
    (targets : gmap string string) (t : nat) :
  one_line project_name -> one_line status ->
  let message := message_of project_name status details in
  let e := (if Py.truthy (targets !! "email")
            then send_email environ env (default "" (targets !! "email"))
                   ("Webhook Update: " +:+ project_name) message
            else mret ()) t in
  let s := (if Py.truthy (targets !! "slack_webhook")
            then send_slack environ env message (default "" (targets !! "slack_webhook"))
            else mret ()) (clock e) in
  let m := (if Py.truthy (targets !! "mattermost_webhook")
            then send_mattermost env message
                   (default "" (targets !! "mattermost_webhook"))
            else mret ()) (clock s) in
  send_notifications environ env project_name status details (Some targets) t
  = Run (Returned ()) (clock m)
      (Dispatch project_name status details :: events e ++ events s ++ events m).
Proof.
  intros Hn Hs message e s m.
  assert (result e = Returned ()) as He.
  { subst e. destruct (Py.truthy (targets !! "email"));
      [apply send_email_result | reflexivity]. }
  assert (result s = Returned ()) as Hs'.
  { subst s message. destruct (Py.truthy (targets !! "slack_webhook"));
      [now apply send_slack_result | reflexivity]. }
  assert (result m = Returned ()) as Hm.
  { subst m message. destruct (Py.truthy (targets !! "mattermost_webhook"));
      [now apply send_mattermost_result | reflexivity]. }
  unfold send_notifications.
  fold (message_of project_name status details). fold message.
  rewrite bind_run. cbn [emit result clock events notifications_get].
  rewrite mret_bind, bind_run. fold e. rewrite He. cbn zeta.
  rewrite mret_bind, bind_run. fold s. rewrite Hs'. cbn zeta.
  rewrite mret_bind. fold m. cbn [result clock events app].
  rewrite Hm. reflexivity.
Qed.

End Deliveries.

(** ** Started children *)

Section Executed.

Lemma executed_app (a b : list event) : executed (a ++ b) = executed a ++ executed b.
Proof. apply List.filter_app. Qed.

Lemma executed_quiet (evs : list event) : Forall quiet evs -> executed evs = [].
Proof.
  induction 1 as [|e evs He _ IH]; [reflexivity|].
  destruct e; cbn in *; try exact IH. contradiction.
Qed.

Lemma executed_started (cwd : string) (cmds : list (list string)) :
  executed (started cwd cmds) = map (fun c => Exec c cwd) cmds.
Proof.
  induction cmds as [|c cs IH]; [reflexivity|].
  cbn. f_equal. exact IH.
Qed.

Lemma quiet_not_exec (evs : list event) (command : list string) (cwd : string) :
  Forall quiet evs -> Exec command cwd ∉ evs.
Proof.
  intros Hq Hin. rewrite Forall_forall in Hq. exact (Hq _ Hin).
Qed.

Lemma differs_same (target : string) : differs (Some (JStr target)) target = false.
Proof. cbn. now rewrite String.eqb_refl. Qed.

End Executed.

(** * The properties of the specification *)




(** C2, as the code has it. When command i is the first to fail (non-zero
    exit, death by signal, or an exception of [check_output]), the children
    started are the commands up to i and no later one, a dispatch with
    status Failed is entered whose details are the text of the exception,
    and the answer is a 500; when the dispatch completes (the notifications
    are a mapping and the project name is one line) the detail of the 500
    is that same text. For a child that exited, the text is computed from
    the argument list and the exit code alone, whatever the child printed:
    for a positive code it is the sentence
    [Command '<argv>' returned non-zero exit status <code>.]; for a child
    that could not be run it is the text of that exception. *)
Theorem failing_command_stops_the_run (environ : Environ) (env : Env)
    (request : Request) (pc : ProjectConfig) (members : list (string * json))
    (pre post : list (list string))
    (c : list string) (outs : list string) (e : exn) (t : nat) :
  valid_signature request pc ->
  json_body request = inr (JObj members) ->
  assoc "ref" members = Some (JStr (target_branch pc)) ->
  commands pc = pre ++ c :: post ->
  succeed_from env (directory pc) t pre outs ->
  failure env c (child env (t + length pre) c (directory pc)) = Some e ->
  let r := process_webhook environ env request pc t in
  executed (events r) = map (fun c => Exec c (directory pc)) (pre ++ [c])
  /\ Dispatch (name pc) "Failed" (str_exn e) ∈ events r
  /\ http_status (result r) = 500%Z
  /\ (forall targets,
        notifications pc = Some targets -> one_line (name pc) ->
        result r = Raised (HTTPException 500 (str_exn e)))
  /\ (forall returncode output,
        child env (t + length pre) c (directory pc) = Exited returncode output ->
        str_exn e = str_CalledProcessError env c returncode)
  /\ (forall returncode output,
        child env (t + length pre) c (directory pc) = Exited returncode output ->
        (0 < returncode)%Z ->
        str_exn e = "Command '" +:+ PyRepr.str_list c
                    +:+ "' returned non-zero exit status " +:+ Py.str_int returncode
                    +:+ ".")
  /\ (forall kind text,
        child env (t + length pre) c (directory pc) = Threw kind text ->
        str_exn e = text).
Proof.
  intros Hv Hj Href Hc Hok Hf r. subst r.
  assert (differs (assoc "ref" members) (target_branch pc) = false) as Hd
    by (rewrite Href; apply differs_same).
  rewrite (process_webhook_failure environ env request pc members pre post c outs e t
             Hv Hj Hd Hc Hok Hf).
  cbn [result events].
  pose proof (send_notifications_tame environ env (name pc) "Failed" (str_exn e)
                (notifications pc) (S (t + length pre))) as Ht.
  unfold tame in Ht.
  split; [|split; [|split; [|split; [|split; [|split]]]]].
  - change (?x :: ?l ++ ?y :: ?l') with ([x] ++ l ++ [y] ++ l').
    rewrite !executed_app, executed_started, (executed_quiet (events _)).
    + cbn. now rewrite app_nil_r.
    + apply send_notifications_quiet.
  - apply list_elem_of_further, elem_of_app. right.
    apply list_elem_of_further, send_notifications_dispatches.
  - destruct (result (send_notifications _ _ _ _ _ _ _)) as [[]|[code d|kind text]];
      [reflexivity | contradiction | reflexivity].
  - intros targets Hn Hname.
    rewrite Hn, send_notifications_result by (exact Hname || reflexivity).
    reflexivity.
  - intros rc out Hchild. rewrite Hchild in Hf.
    destruct rc as [|rc|rc]; cbn in Hf; [discriminate Hf| |]; now inversion Hf.
  - intros rc out Hchild Hpos. rewrite Hchild in Hf.
    destruct rc as [|rc|rc]; [lia| |lia].
    cbn in Hf. inversion Hf. reflexivity.
  - intros kind text Hchild. rewrite Hchild in Hf. cbn in Hf. now inversion Hf.
Qed.

Lemma failing_command_stops_the_run_witness :
  result (process_webhook Demo.environ Demo.calm Demo.push_main Demo.deploy 0)
  = Raised (HTTPException 500
              "Command '['make', 'deploy']' returned non-zero exit status 2.")
  /\ executed (events (process_webhook Demo.environ Demo.calm Demo.push_main
                         Demo.deploy 0))
     = [Exec ["git"; "pull"] "/srv/demo"; Exec ["make"; "deploy"] "/srv/demo"].
Proof.
  destruct (failing_command_stops_the_run Demo.environ Demo.calm Demo.push_main
              Demo.deploy [("ref", JStr "refs/heads/main")]
              [["git"; "pull"]] [["systemctl"; "restart"; "demo"]] ["make"; "deploy"]
              ["Already up to date." +:+ Py.nl]
              (Error "CalledProcessError"
                 "Command '['make', 'deploy']' returned non-zero exit status 2.") 0)
    as (He & _ & _ & Hr & _).
  - vm_compute. reflexivity.
  - reflexivity.
  - reflexivity.
  - reflexivity.
  - vm_compute. split; reflexivity.
  - vm_compute. reflexivity.
  - split; [apply (Hr Demo.chat); reflexivity | exact He].
Defined.

(** C2, counterexample. The second command of the deployment exits with
    code 2 after printing a line; the detail of the 500 is the sentence
    about the exit status, in which that line does not occur. *)
Lemma failure_details_omit_output :
  child Demo.calm 1 ["make"; "deploy"] "/srv/demo"
  = Exited 2 ("error: disk full" +:+ Py.nl)
  /\ result (process_webhook Demo.environ Demo.calm Demo.push_main Demo.deploy 0)
     = Raised (HTTPException 500
                 "Command '['make', 'deploy']' returned non-zero exit status 2.")
  /\ contains "error: disk full"
       "Command '['make', 'deploy']' returned non-zero exit status 2." = false.
Proof. vm_compute. repeat split; reflexivity. Qed.

Lemma truthy_some (s : string) : s <> "" -> Py.truthy (Some s) = true.
Proof. now destruct s. Qed.

Lemma process_webhook_ignored_outcome (environ : Environ) (env : Env)
    (request : Request) (pc : ProjectConfig) (members : list (string * json))
    (targets : gmap string string) (t : nat) :
  valid_signature request pc ->
  json_body request = inr (JObj members) ->
  differs (assoc "ref" members) (target_branch pc) = true ->
  notifications pc = Some targets ->
  one_line (name pc) ->
  ignored_outcome environ pc targets (process_webhook environ env request pc t).
Proof.
  intros Hv Hj Hd Hn Hname.
  assert (one_line "Ignored") as Hst by reflexivity.
  rewrite (process_webhook_ignored environ env request pc members t Hv Hj Hd)
    by (rewrite Hn; now apply send_notifications_result).
  rewrite Hn.
  pose proof (send_notifications_run environ env (name pc) "Ignored"
                ("Push was not to the target branch " +:+ target_branch pc +:+ ".")
                targets t Hname Hst) as Hrun.
  cbn zeta in Hrun.
  unfold ignored_outcome. cbn [result clock events http_status].
  split; [reflexivity|]. split; [reflexivity|]. split.
  { change (?x :: ?l) with ([x] ++ l).
    rewrite executed_app, (executed_quiet (events _)); [reflexivity|].
    apply send_notifications_quiet. }
  split.
  { apply list_elem_of_further, send_notifications_dispatches. }
  rewrite Hrun. cbn [events].
  split; [|split].
  - intros url Hurl Hne Htok. rewrite Hurl, (truthy_some url Hne). cbn [default].
    destruct (send_slack_posts environ env (name pc) "Ignored"
                ("Push was not to the target branch " +:+ target_branch pc +:+ ".")
                url
                (clock ((if Py.truthy (targets !! "email")
                         then send_email environ env (default "" (targets !! "email"))
                                ("Webhook Update: " +:+ name pc)
                                (message_of (name pc) "Ignored"
                                   ("Push was not to the target branch "
                                    +:+ target_branch pc +:+ "."))
                         else mret ()) t))
                Hname Hst Htok Hne) as (payload & headers & Hin).
    exists payload, headers.
    do 2 apply list_elem_of_further. apply elem_of_app. right.
    apply elem_of_app. left. exact Hin.
  - intros url Hurl Hne. rewrite Hurl, (truthy_some url Hne). cbn [default].
    edestruct (send_mattermost_posts env (name pc) "Ignored"
                ("Push was not to the target branch " +:+ target_branch pc +:+ ".")
                url) as (payload & headers & Hin); [exact Hname | exact Hst | exact Hne |].
    exists payload, headers.
    do 2 apply list_elem_of_further. apply elem_of_app. right.
    apply elem_of_app. right. exact Hin.
  - intros to_email Hto Hne Hc. rewrite Hto, (truthy_some to_email Hne). cbn [default].
    do 2 apply list_elem_of_further. apply elem_of_app. left.
    now apply send_email_connects.
Qed.

(** C1, as the code has it. For an authentic request whose payload is an
    object whose ref is not the target branch, on a project with a one-line
    name and a mapping of targets: no child is started, a dispatch with
    status Ignored is entered and reaches every configured channel, and the
    response is a 200 whose body has the key message only. *)
Theorem branch_mismatch_is_ignored (environ : Environ) (env : Env)
    (request : Request) (pc : ProjectConfig) (members : list (string * json))
    (targets : gmap string string) (t : nat) :
  valid_signature request pc ->
  json_body request = inr (JObj members) ->
  differs (assoc "ref" members) (target_branch pc) = true ->
  notifications pc = Some targets ->
  one_line (name pc) ->
  ignored_outcome environ pc targets (process_webhook environ env request pc t).
Proof.
  intros Hv Hj Hd Hn Hname.
  now apply (process_webhook_ignored_outcome environ env request pc members targets t).
Qed.

Lemma branch_mismatch_is_ignored_witness :
  ignored_outcome Demo.environ Demo.demo Demo.chat
    (process_webhook Demo.environ Demo.calm Demo.push_dev Demo.demo 0).
Proof.
  apply (branch_mismatch_is_ignored Demo.environ Demo.calm Demo.push_dev Demo.demo
           [("ref", JStr "refs/heads/dev")] Demo.chat 0).
  - vm_compute. reflexivity.
  - reflexivity.
  - reflexivity.
  - reflexivity.
  - reflexivity.
Defined.

(** C1, counterexample. A signed push to another branch is answered with a
    body that has no status and no details. *)
Lemma ignored_response_has_no_status :
  valid_signature Demo.push_dev Demo.demo
  /\ differs (Some (JStr "refs/heads/dev")) (target_branch Demo.demo) = true
  /\ result (process_webhook Demo.environ Demo.calm Demo.push_dev Demo.demo 0)
     = Returned [("message", "Push was not to the target branch, ignoring.")]
  /\ ~ (exists body,
          result (process_webhook Demo.environ Demo.calm Demo.push_dev Demo.demo 0)
          = Returned body
          /\ ("status", "Ignored") ∈ body).
Proof.
  assert (result (process_webhook Demo.environ Demo.calm Demo.push_dev Demo.demo 0)
          = Returned [("message", "Push was not to the target branch, ignoring.")])
    as E by (vm_compute; reflexivity).
  split; [vm_compute; reflexivity|]. split; [reflexivity|]. split; [exact E|].
  intros (body & Hb & Hin). rewrite E in Hb. inversion Hb; subst body.
  apply list_elem_of_singleton in Hin. discriminate Hin.
Qed.




Lemma validate_signature_code (request : Request) (secret_token : string) (t : nat)
    (status_code : Z) (detail : string) :
  result (validate_signature request secret_token t)
  = Raised (HTTPException status_code detail) ->
  status_code = 401%Z.
Proof.
  rewrite validate_signature_run. cbn [result].
  destruct (signature_header request) as [signature|]; [|now inversion 1].
  destruct (Py.isascii signature); [|discriminate].
  destruct (String.eqb _ signature); [discriminate | now inversion 1].
Qed.

Lemma not_dispatched_nil : ~ dispatched [].
Proof. intros (p & s & d & H). now apply not_elem_of_nil in H. Qed.

(** C5. A dispatch is entered exactly when the project resolves and the
    request is not answered 401, that is when the pipeline ends Ignored,
    Success or Failed; a 401 or a 404 comes with no event at all; and a
    failing command yields a dispatch with status Failed and a 500. *)
Theorem notifications_follow_the_pipeline (environ : Environ)
    (PROJECTS : gmap string raw_config) (env : Env) (request : Request)
    (project_name : string) (t : nat) :
  let r := webhook_handler environ PROJECTS env request project_name t in
  (dispatched (events r) <->
   exists pc, resolve PROJECTS project_name = inr pc
              /\ http_status (result r) <> 401%Z)
  /\ (http_status (result r) = 401%Z \/ http_status (result r) = 404%Z ->
      events r = [])
  /\ (forall pc members pre c post outs e,
        resolve PROJECTS project_name = inr pc ->
        valid_signature request pc ->
        json_body request = inr (JObj members) ->
        assoc "ref" members = Some (JStr (target_branch pc)) ->
        commands pc = pre ++ c :: post ->
        succeed_from env (directory pc) t pre outs ->
        failure env c (child env (t + length pre) c (directory pc)) = Some e ->
        http_status (result r) = 500%Z
        /\ Dispatch (name pc) "Failed" (str_exn e) ∈ events r).
Proof.
  intros r. subst r. unfold webhook_handler.
  destruct (resolve PROJECTS project_name) as [e|pc] eqn:Eres.
  - cbn [raise result events]. split; [|split].
    + split; [intros H; now apply not_dispatched_nil in H|].
      intros (pc & Hpc & _). discriminate Hpc.
    + reflexivity.
    + intros pc members pre c post outs e' Hpc. discriminate Hpc.
  - destruct (result (validate_signature request (secret_token pc) t))
      as [[]|[code detail|kind text]] eqn:Ev.
    1,3: assert (tame (validate_signature request (secret_token pc) t)) as Ht
           by (unfold tame; now rewrite Ev).
    1,2: destruct (process_webhook_authenticated environ env request pc t Ht)
           as [Hs (st & det & Hd)].
    1,2: split; [|split].
    1,4: split; [intros _; exists pc; split; [reflexivity | lia]
                | intros _; now exists (name pc), st, det].
    1,3: intros H; lia.
    3:{ pose proof (validate_signature_code _ _ _ _ _ Ev) as ->.
        rewrite (process_webhook_unauthenticated environ env request pc t _ _ Ev).
        cbn [result events http_status]. split; [|split].
        - split; [intros H; now apply not_dispatched_nil in H|].
          intros (pc' & _ & H). now destruct H.
        - reflexivity.
        - intros pc' members pre c post outs e' Hpc Hv.
          inversion Hpc; subst pc'.
          rewrite (validate_signature_valid request pc t Hv) in Ev. discriminate Ev. }
    all: intros pc' members pre c post outs e' Hpc Hv Hj Href Hc Hok Hf;
      inversion Hpc; subst pc';
      assert (differs (assoc "ref" members) (target_branch pc) = false) as Hdf
        by (rewrite Href; apply differs_same);
      rewrite (process_webhook_failure environ env request pc members pre post c outs e' t
                 Hv Hj Hdf Hc Hok Hf);
      cbn [result events];
      pose proof (send_notifications_tame environ env (name pc) "Failed" (str_exn e')
                    (notifications pc) (S (t + length pre))) as Ht';
      unfold tame in Ht';
      (split;
       [destruct (result (send_notifications _ _ _ _ _ _ _)) as [[]|[c' d'|k x]];
          [reflexivity | contradiction | reflexivity]
       | apply list_elem_of_further, elem_of_app; right;
         apply list_elem_of_further, send_notifications_dispatches]).
Qed.

Lemma notifications_follow_the_pipeline_witness :
  http_status
    (result (webhook_handler Demo.environ Demo.PROJECTS Demo.calm Demo.push_main
               "deploy" 0)) = 500%Z
  /\ Dispatch "demo" "Failed"
       "Command '['make', 'deploy']' returned non-zero exit status 2."
     ∈ events (webhook_handler Demo.environ Demo.PROJECTS Demo.calm Demo.push_main
                 "deploy" 0).
Proof.
  destruct (notifications_follow_the_pipeline Demo.environ Demo.PROJECTS Demo.calm
              Demo.push_main "deploy" 0) as (_ & _ & H).
  apply (H Demo.deploy [("ref", JStr "refs/heads/main")] [["git"; "pull"]]
           ["make"; "deploy"] [["systemctl"; "restart"; "demo"]]
           ["Already up to date." +:+ Py.nl]
           (Error "CalledProcessError"
              "Command '['make', 'deploy']' returned non-zero exit status 2.")).
  - vm_compute. reflexivity.
  - vm_compute. reflexivity.
  - reflexivity.
  - reflexivity.
  - reflexivity.
  - vm_compute. split; reflexivity.
  - vm_compute. reflexivity.
Defined.

(** C7. Two worlds that treat child processes, the clock and signals alike
    and differ only in how the mail server and the chat endpoints answer
    give the same response (status and body) and the same attempts on the
    outside, in the same order: a delivery that fails changes log lines
    only. *)
Theorem channel_failures_leave_response_alone (environ : Environ)
    (PROJECTS : gmap string raw_config) (env1 env2 : Env) (request : Request)
    (project_name : string) (t : nat) :
  (forall t command cwd, child env1 t command cwd = child env2 t command cwd) ->
  (forall t, strftime_now env1 t = strftime_now env2 t) ->
  (forall n, signal_repr env1 n = signal_repr env2 n) ->
  let r1 := webhook_handler environ PROJECTS env1 request project_name t in
  let r2 := webhook_handler environ PROJECTS env2 request project_name t in
  result r1 = result r2
  /\ http_status (result r1) = http_status (result r2)
  /\ attempts (events r1) = attempts (events r2).
Proof.
  intros Hc Hn Hs r1 r2.
  destruct (webhook_handler_alike environ PROJECTS env1 env2 Hc Hn Hs request
              project_name t) as (Hr & _ & Ha).
  fold r1 r2 in Hr, Ha. rewrite Hr. auto.
Qed.

Lemma channel_failures_leave_response_alone_witness :
  result (webhook_handler Demo.environ Demo.PROJECTS Demo.calm Demo.push_main "demo" 0)
  = result (webhook_handler Demo.environ Demo.PROJECTS Demo.stormy Demo.push_main
              "demo" 0)
  /\ attempts (events (webhook_handler Demo.environ Demo.PROJECTS Demo.calm
                         Demo.push_main "demo" 0))
     = attempts (events (webhook_handler Demo.environ Demo.PROJECTS Demo.stormy
                           Demo.push_main "demo" 0)).
Proof.
  destruct (channel_failures_leave_response_alone Demo.environ Demo.PROJECTS Demo.calm
              Demo.stormy Demo.push_main "demo" 0) as (Hr & _ & Ha).
  - reflexivity.
  - reflexivity.
  - reflexivity.
  - split; [exact Hr | exact Ha].
Defined.

(** C9, as the code has it. When one of server, user, password and sender
    address is missing or empty, the mail is skipped with a warning and
    nothing else happens; the port is never missing, 587 stands in for it.
    Otherwise the conversation is connect, STARTTLS, login, send, in this
    order, cut at the call that raises, and the exception ends as a log
    line: in every case the function returns. *)
Theorem send_email_skips_or_guards (environ : Environ) (env : Env)
    (to_email subject body : string) (t : nat) :
  send_email environ env to_email subject body t =
  if smtp_complete environ then
    let msg := mime_of environ to_email subject body in
    match smtp_fault env t msg with
    | None =>
        Run (Returned ()) (S t)
          (smtp_conversation environ msg ++ [Log INFO ("Email sent to " +:+ to_email)])
    | Some (step, text) =>
        Run (Returned ()) (S t)
          (take (calls_until step) (smtp_conversation environ msg)
           ++ [Log ERROR ("Failed to send email: " +:+ text)])
    end
  else
    Run (Returned ()) t
      [Log WARNING "Email configuration incomplete, skipping email notification"].
Proof.
  unfold send_email, smtp_complete, EMAIL_CONFIG. cbn [smtp_server smtp_user
    smtp_password from_email smtp_port].
  destruct (_ && _); [|reflexivity]. cbn [negb]. unfold mime_of.
  unfold try_except, smtp_call, ask, emit, logger, emit, raise, mbind, M_bind,
    mret, M_ret.
  cbn. destruct (smtp_fault env t _) as [[[] text]|]; reflexivity.
Qed.


(** C9, counterexample. With the port missing from the environment and the
    four other settings present, the mail is not skipped: the server is
    contacted on port 587. *)
Lemma missing_port_is_not_skipped :
  SMTP_PORT Demo.environ_no_port = None
  /\ send_email Demo.environ_no_port Demo.calm "ops@example.org" "Webhook Update: demo"
       "Webhook for demo - Status: Success" 0
     = Run (Returned ()) 1
         [SmtpConnect "smtp.example.org" 587; SmtpStartTLS; SmtpLogin "bot" "hunter2";
          SmtpSend {| mime_payload := "Webhook for demo - Status: Success";
                      Subject := "Webhook Update: demo";
                      From := "bot@example.org"; To := "ops@example.org" |};
          Log INFO "Email sent to ops@example.org"].
Proof. split; reflexivity. Qed.

(** C4, at a failing input. The details of a run whose only command printed
    one line come out of the re-parsing empty, and Slack is told that no
    details are available; a project name with the delimiter in it comes
    out cut, and the rest of it is taken for the status. *)
Theorem chat_backends_lose_the_details :
  parse_message (message_of "demo" "Success" ("Command echo hi: hi" +:+ Py.nl)) 0
  = Run (Returned ("demo", "Success", "")) 0 []
  /\ events (send_slack Demo.environ Demo.calm
               (message_of "demo" "Success" ("Command echo hi: hi" +:+ Py.nl))
               "https://hooks.slack.example/T0/B0" 0)
     = [Post "https://hooks.slack.example/T0/B0"
          (JObj [("attachments", JArr [JObj [
             ("color", JStr "#36a64f");
             ("title", JStr "Webhook Notification: demo");
             ("fields", JArr [
                JObj [("title", JStr "Status"); ("value", JStr "Success");
                      ("short", JBool true)];
                JObj [("title", JStr "Timestamp"); ("value", JStr "2024-05-01 12:00:00");
                      ("short", JBool true)];
                JObj [("title", JStr "Details"); ("value", JStr "No details available");
                      ("short", JBool false)]]);
             ("footer", JStr "GitHub Webhook Service")]])])
          [("Authorization", "Bearer xoxb-1"); ("Content-Type", "application/json")];
        Log INFO "Slack notification sent"]
  /\ parse_message (message_of "api - staging" "Failed" "boom") 0
     = Run (Returned ("api", "staging", "")) 0 [].
Proof. vm_compute. repeat split; reflexivity. Qed.

(** C8, at a failing input. A signature header that is present, differs
    from the computed value and holds a character outside ASCII is not
    answered 401: the comparison raises, the error is caught at line 228, a
    dispatch with status Failed is entered and the response is a 500. *)
Theorem non_ascii_signature_is_not_a_401 :
  signature_header Demo.push_latin1 = Some (String "233" "")
  /\ validate_signature Demo.push_latin1 (secret_token Demo.demo) 0
     = Run (Raised (Error "TypeError"
                      "comparing strings with non-ASCII characters is not supported"))
         0 []
  /\ result (process_webhook Demo.environ Demo.calm Demo.push_latin1 Demo.demo 0)
     = Raised (HTTPException 500
                 "comparing strings with non-ASCII characters is not supported")
  /\ Dispatch "demo" "Failed"
       "comparing strings with non-ASCII characters is not supported"
     ∈ events (process_webhook Demo.environ Demo.calm Demo.push_latin1 Demo.demo 0).
Proof.
  split; [reflexivity|]. split; [vm_compute; reflexivity|].
  split; [vm_compute; reflexivity|].
  vm_compute. apply list_elem_of_further, list_elem_of_here.
Qed.

(** The part of C3 that is about what the function computes: the header
    built as the code builds it passes the check, whatever secret and
    body. *)
Lemma computed_signature_verifies (secret_token raw : string) (decoded : string + json)
    (t : nat) :
  validate_signature
    {| body := raw; signature_header := Some (expected_signature secret_token raw);
       json_body := decoded |} secret_token t
  = Run (Returned ()) t [].
Proof.
  rewrite validate_signature_run. cbn [signature_header body].
  now rewrite expected_signature_isascii, String.eqb_refl.
Qed.

(** On an ASCII header that differs from the computed value, the check
    answers 401. *)
Lemma wrong_ascii_signature_rejected (request : Request) (secret_token signature : string)
    (t : nat) :
  signature_header request = Some signature ->
  Py.isascii signature = true ->
  signature <> expected_signature secret_token (body request) ->
  validate_signature request secret_token t
  = Run (Raised (HTTPException 401 "Invalid signature")) t [].
Proof.
  intros Hh Ha Hne. rewrite validate_signature_run, Hh, Ha.
  destruct (String.eqb_spec (expected_signature secret_token (body request)) signature)
    as [E|_]; [now destruct Hne | reflexivity].
Qed.

(** * Further properties of the code *)

(** ** Splitting and removing *)

Section SplitFacts.

Lemma contains_false_cons (needle : string) (x : ascii) (s : string) :
  contains needle (String x s) = false ->
  String.prefix needle (String x s) = false /\ contains needle s = false.
Proof. cbn [contains]. intros H. now apply orb_false_elim in H. Qed.

(** A separator that does not occur leaves the string whole. *)
Lemma split_absent (sep s : string) :
  sep <> "" -> contains sep s = false -> Py.split sep s = [s].
Proof.
  intros Hsep. unfold Py.split. induction s as [|x s IH]; intros Hc; [reflexivity|].
  apply contains_false_cons in Hc as [Hp Hc].
  cbn [Py.split_scan]. rewrite Hp, (IH Hc). reflexivity.
Qed.

Lemma split_scan_skip (sep rest : string) (pre : string) :
  Py.split_scan sep (String.length pre) (pre +:+ rest) = Py.split_scan sep 0 rest.
Proof. induction pre as [|x pre IH]; [reflexivity | exact IH]. Qed.

(** A string that begins with the separator gives an empty first piece. *)
Lemma split_leading (sep rest : string) :
  sep <> "" -> Py.split sep (sep +:+ rest) = "" :: Py.split sep rest.
Proof.
  intros Hsep. unfold Py.split. destruct sep as [|c sep]; [now destruct Hsep|].
  change (String c sep +:+ rest) with (String c (sep +:+ rest)).
  cbn [Py.split_scan].
  change (String c (sep +:+ rest)) with (String c sep +:+ rest).
  rewrite prefix_app.
  replace (String.length (String c sep) - 1) with (String.length sep)
    by (cbn [String.length]; lia).
  now rewrite split_scan_skip.
Qed.

(** [s.replace(old, '')] on a string that begins with [old] and has no other
    occurrence of it. *)
Lemma remove_leading (old s : string) :
  old <> "" -> contains old s = false -> Py.remove old (old +:+ s) = s.
Proof.
  intros Hold Hc. unfold Py.remove.
  rewrite (split_leading old s Hold), (split_absent old s Hold Hc). reflexivity.
Qed.

(** Lines 104: a piece without the two characters space and hyphen in a
    row comes out of [split(' - ')] whole. *)
Lemma split_dash_first (a b : string) :
  contains " -" a = false ->
  Py.split " - " (a +:+ " - " +:+ b) = a :: Py.split " - " b.
Proof.
  unfold Py.split. induction a as [|x a IH]; intros Hc.
  - apply (split_leading " - " b). discriminate.
  - apply contains_false_cons in Hc as [Hp Hc].
    change (String x a +:+ " - " +:+ b) with (String x (a +:+ " - " +:+ b)).
    cbn [Py.split_scan].
    assert (String.prefix " - " (String x (a +:+ " - " +:+ b)) = false) as ->.
    { cbn [String.prefix] in Hp |- *.
      destruct (ascii_dec " " x) as [_|_]; [|reflexivity].
      destruct a as [|y a]; [reflexivity|].
      change (String y a +:+ " - " +:+ b) with (String y (a +:+ " - " +:+ b)).
      cbn [String.prefix] in Hp |- *.
      destruct (ascii_dec "-" y) as [_|_]; [|reflexivity].
      destruct a; discriminate Hp. }
    now rewrite (IH Hc).
Qed.

(** The lines of a text that follows a one-line prefix. *)
Lemma split_lines_prefixed (pre s : string) :
  one_line pre ->
  Py.split Py.nl (pre +:+ s)
  = match Py.split Py.nl s with
    | first :: rest => (pre +:+ first) :: rest
    | [] => [pre]
    end.
Proof.
  unfold Py.split, one_line. induction pre as [|x pre IH]; intros Hp.
  - cbn [String.append]. pose proof (split_scan_nonempty Py.nl s 0).
    now destruct (Py.split_scan Py.nl 0 s).
  - cbn [PyRepr.has_char] in Hp. apply orb_false_elim in Hp as [Hx Hp].
    change (String x pre +:+ s) with (String x (pre +:+ s)).
    cbn [Py.split_scan].
    assert (String.prefix Py.nl (String x (pre +:+ s)) = false) as ->.
    { unfold Py.nl. cbn [String.prefix].
      destruct (ascii_dec "010" x) as [<-|_]; [|reflexivity].
      now rewrite Ascii.eqb_refl in Hx. }
    rewrite (IH Hp). now destruct (Py.split_scan Py.nl 0 s).
Qed.

Lemma one_line_split (s : string) : one_line s -> Py.split Py.nl s = [s].
Proof.
  unfold Py.split, one_line. induction s as [|x s IH]; intros Hs; [reflexivity|].
  cbn [PyRepr.has_char] in Hs. apply orb_false_elim in Hs as [Hx Hs].
  cbn [Py.split_scan].
  assert (String.prefix Py.nl (String x s) = false) as ->.
  { unfold Py.nl. cbn [String.prefix].
    destruct (ascii_dec "010" x) as [<-|_]; [|reflexivity].
    now rewrite Ascii.eqb_refl in Hx. }
  now rewrite (IH Hs).
Qed.

End SplitFacts.

(** ** What the chat backends read back from the message *)

(** The re-parsing of lines 103-107 on the message of line 188. *)
Lemma parse_message_reads (project_name status details : string)
    (t : nat) :
  one_line project_name ->
  contains " -" ("Webhook for " +:+ project_name) = false ->
  contains "Webhook for " project_name = false ->
  status ∈ statuses ->
  parse_message (message_of project_name status details) t
  = Run (Returned (project_name, status,
                   Py.join Py.nl (drop 1 (Py.split Py.nl details)))) t [].
Proof.
  intros Hn Hdash Hwords Hst.
  assert (one_line status /\
          Py.split " - " ("Status: " +:+ status) = ["Status: " +:+ status] /\
          Py.remove "Status: " ("Status: " +:+ status) = status) as (Hs & Hsplit & Hrem).
  { unfold statuses in Hst. rewrite !elem_of_cons in Hst.
    destruct Hst as [->|[->|[->|Hst]]]; [| | |now apply not_elem_of_nil in Hst];
      now vm_compute. }
  unfold parse_message, message_of.
  replace ("Webhook for " +:+ project_name +:+ " - Status: " +:+ status +:+ Py.nl
           +:+ "Details: " +:+ details)
    with ((("Webhook for " +:+ project_name) +:+ " - " +:+ ("Status: " +:+ status))
          +:+ Py.nl +:+ ("Details: " +:+ details))
    by (rewrite !app_assoc_s; reflexivity).
  rewrite split_first_line.
  2:{ rewrite !has_char_app, Hn, Hs. reflexivity. }
  rewrite index_here, mret_bind.
  rewrite (split_dash_first _ _ Hdash), Hsplit.
  rewrite index_here, mret_bind, index_next, mret_bind.
  rewrite Hrem, (remove_leading "Webhook for " project_name) by (discriminate || exact Hwords).
  rewrite (split_lines_prefixed "Details: " details) by reflexivity.
  pose proof (split_scan_nonempty Py.nl details 0) as Hne. fold (Py.split Py.nl details) in Hne.
  destruct (Py.split Py.nl details) as [|d0 ds]; [now destruct Hne|].
  reflexivity.
Qed.

(** X1. On the message built for a one-line project name that neither
    starts with a hyphen nor has a space followed by a hyphen, and that
    does not contain the words [Webhook for ], the re-parsing of lines
    103-107 gives back the name and the status, and as details the details
    passed without their first line. *)
Theorem parse_message_drops_first_line (project_name status details : string)
    (t : nat) :
  one_line project_name ->
  contains " -" ("Webhook for " +:+ project_name) = false ->
  contains "Webhook for " project_name = false ->
  status ∈ statuses ->
  parse_message (message_of project_name status details) t
  = Run (Returned (project_name, status,
                   Py.join Py.nl (drop 1 (Py.split Py.nl details)))) t [].
Proof. apply parse_message_reads. Qed.

Lemma parse_message_drops_first_line_witness :
  parse_message
    (message_of "my-app" "Failed" ("make: *** [deploy] Error 2" +:+ Py.nl +:+ "rolled back"))
    0
  = Run (Returned ("my-app", "Failed", "rolled back")) 0 [].
Proof.
  apply (parse_message_drops_first_line "my-app" "Failed"
           ("make: *** [deploy] Error 2" +:+ Py.nl +:+ "rolled back") 0).
  - reflexivity.
  - reflexivity.
  - reflexivity.
  - unfold statuses. rewrite !elem_of_cons. auto.
Defined.

(** X2. Details of one line are read back as no details at all. *)
Theorem one_line_details_are_lost (project_name status details : string) (t : nat) :
  one_line project_name ->
  contains " -" ("Webhook for " +:+ project_name) = false ->
  contains "Webhook for " project_name = false ->
  status ∈ statuses ->
  one_line details ->
  parse_message (message_of project_name status details) t
  = Run (Returned (project_name, status, "")) t [].
Proof.
  intros Hn Hdash Hwords Hst Hd.
  rewrite (parse_message_reads project_name status details t Hn Hdash
             Hwords Hst).
  now rewrite (one_line_split details Hd).
Qed.

Lemma one_line_details_are_lost_witness :
  parse_message (message_of "demo" "Success" "Command echo hi: hi") 0
  = Run (Returned ("demo", "Success", "")) 0 [].
Proof.
  apply (one_line_details_are_lost "demo" "Success" "Command echo hi: hi" 0).
  - reflexivity.
  - reflexivity.
  - reflexivity.
  - unfold statuses. rewrite !elem_of_cons. auto.
  - reflexivity.
Defined.

(** The re-parsing on a project name with a line break in it. *)
Lemma parse_message_breaks (first rest status details : string) (t : nat) :
  one_line first ->
  contains " - " ("Webhook for " +:+ first) = false ->
  parse_message (message_of (first +:+ Py.nl +:+ rest) status details) t
  = Run (Raised (Error "IndexError" "list index out of range")) t [].
Proof.
  intros Hf Hc. unfold parse_message, message_of.
  replace ("Webhook for " +:+ (first +:+ Py.nl +:+ rest) +:+ " - Status: " +:+ status
           +:+ Py.nl +:+ "Details: " +:+ details)
    with (("Webhook for " +:+ first) +:+ Py.nl
          +:+ (rest +:+ " - Status: " +:+ status +:+ Py.nl +:+ "Details: " +:+ details))
    by (rewrite !app_assoc_s; reflexivity).
  rewrite split_first_line by (rewrite has_char_app, Hf; reflexivity).
  rewrite index_here, mret_bind.
  rewrite (split_absent " - " _ ltac:(discriminate) Hc).
  rewrite index_here, mret_bind. reflexivity.
Qed.

(** X3. When the project name has a line break and its first line has no
    [ - ] after [Webhook for ], the re-parsing indexes past the end of a
    list of one piece: it raises IndexError, before any POST. *)
Theorem name_with_line_break_breaks_the_parse (first rest status details : string)
    (t : nat) :
  one_line first ->
  contains " - " ("Webhook for " +:+ first) = false ->
  parse_message (message_of (first +:+ Py.nl +:+ rest) status details) t
  = Run (Raised (Error "IndexError" "list index out of range")) t [].
Proof. apply parse_message_breaks. Qed.

Lemma name_with_line_break_breaks_the_parse_witness :
  parse_message (message_of ("shop" +:+ Py.nl +:+ "backend") "Success" "ok") 0
  = Run (Raised (Error "IndexError" "list index out of range")) 0 [].
Proof.
  apply (name_with_line_break_breaks_the_parse "shop" "backend" "Success" "ok" 0);
    reflexivity.
Defined.

(** ** A project name that breaks the dispatch *)

Section BrokenName.

Variable environ : Environ.
Variable env : Env.

Lemma unposted_not_posted (evs : list event) (url : string) :
  Forall unposted evs -> ~ posted url evs.
Proof.
  intros Hu (payload & headers & Hin). rewrite Forall_forall in Hu.
  exact (Hu _ Hin).
Qed.

Lemma send_email_unposted (to_email subject body : string) (t : nat) :
  Forall unposted (events (send_email environ env to_email subject body t)).
Proof.
  unfold send_email.
  destruct (negb _); [repeat constructor|].
  unfold try_except, smtp_call, ask, emit, logger, emit, raise, mbind, M_bind, mret, M_ret.
  cbn. destruct (smtp_fault env t _) as [[[] text]|]; repeat constructor.
Qed.

Lemma send_slack_breaks (first rest status details webhook_url : string) (t : nat) :
  one_line first ->
  contains " - " ("Webhook for " +:+ first) = false ->
  let r := send_slack environ env (message_of (first +:+ Py.nl +:+ rest) status details)
             webhook_url t in
  (result r = Returned ()
   \/ result r = Raised (Error "IndexError" "list index out of range"))
  /\ clock r = t /\ Forall unposted (events r).
Proof.
  intros Hf Hc r. subst r. unfold send_slack.
  destruct (_ || _); [repeat split; auto; repeat constructor|].
  rewrite bind_run, (parse_message_breaks first rest status details t Hf Hc).
  cbn [result clock events]. repeat split; auto.
Qed.

Lemma send_mattermost_breaks (first rest status details webhook_url : string) (t : nat) :
  one_line first ->
  contains " - " ("Webhook for " +:+ first) = false ->
  webhook_url <> "" ->
  send_mattermost env (message_of (first +:+ Py.nl +:+ rest) status details) webhook_url t
  = Run (Raised (Error "IndexError" "list index out of range")) t [].
Proof.
  intros Hf Hc Hurl. unfold send_mattermost.
  destruct webhook_url as [|u url]; [done|]. cbn [Py.truthy negb].
  now rewrite bind_run, (parse_message_breaks first rest status details t Hf Hc).
Qed.

Lemma send_notifications_breaks (first rest status details url : string)
    (targets : gmap string string) (t : nat) :
  one_line first ->
  contains " - " ("Webhook for " +:+ first) = false ->
  targets !! "mattermost_webhook" = Some url -> url <> "" ->
  let r := send_notifications environ env (first +:+ Py.nl +:+ rest) status details
             (Some targets) t in
  result r = Raised (Error "IndexError" "list index out of range")
  /\ Forall unposted (events r).
Proof.
  intros Hf Hc Hmm Hurl r. subst r. unfold send_notifications.
  fold (message_of (first +:+ Py.nl +:+ rest) status details).
  rewrite bind_run. cbn [emit result clock events notifications_get].
  rewrite mret_bind, bind_run.
  match goal with
  | |- context [result (?m t)] => set (e := m t)
  end.
  assert (result e = Returned () /\ Forall unposted (events e)) as [He Hue].
  { subst e. destruct (Py.truthy (targets !! "email"));
      [split; [apply send_email_result | apply send_email_unposted]
      | split; [reflexivity | constructor]]. }
  rewrite He. cbn zeta. rewrite mret_bind, bind_run.
  match goal with
  | |- context [result (?m (clock e))] => set (s := m (clock e))
  end.
  assert ((result s = Returned ()
           \/ result s = Raised (Error "IndexError" "list index out of range"))
          /\ Forall unposted (events s)) as [Hs Hus].
  { subst s. destruct (Py.truthy (targets !! "slack_webhook")).
    - destruct (send_slack_breaks first rest status details
                  (default "" (targets !! "slack_webhook")) (clock e) Hf Hc)
        as (H1 & _ & H3). now split.
    - split; [now left | constructor]. }
  destruct Hs as [Hs|Hs]; rewrite Hs; cbn [result clock events].
  - rewrite mret_bind, Hmm, (truthy_some url Hurl). cbn [default].
    rewrite send_mattermost_breaks by assumption. cbn [result clock events].
    split; [reflexivity|].
    rewrite app_nil_r. constructor; [exact I|]. apply Forall_app. now split.
  - split; [reflexivity|]. constructor; [exact I|]. apply Forall_app. now split.
Qed.

(** X4. On a project whose name has a line break (first line without
    [ - ]) and that has a Mattermost target, an authentic push to the
    target branch whose commands all succeed starts every command, and then
    the dispatch of line 235 raises IndexError out of the handler: the
    deployment ran, the caller gets a 500 and no chat message is posted. *)
Theorem deployment_succeeds_but_dispatch_breaks (request : Request)
    (pc : ProjectConfig) (members : list (string * json))
    (targets : gmap string string) (outs : list string)
    (first rest url : string) (t : nat) :
  valid_signature request pc ->
  json_body request = inr (JObj members) ->
  assoc "ref" members = Some (JStr (target_branch pc)) ->
  succeed_from env (directory pc) t (commands pc) outs ->
  notifications pc = Some targets ->
  targets !! "mattermost_webhook" = Some url -> url <> "" ->
  name pc = first +:+ Py.nl +:+ rest ->
  one_line first ->
  contains " - " ("Webhook for " +:+ first) = false ->
  let r := process_webhook environ env request pc t in
  result r = Raised (Error "IndexError" "list index out of range")
  /\ http_status (result r) = 500%Z
  /\ executed (events r) = map (fun c => Exec c (directory pc)) (commands pc)
  /\ forall u, ~ posted u (events r).
Proof.
  intros Hv Hj Href Hok Hn Hmm Hurl Hname Hf Hc r. subst r.
  assert (differs (assoc "ref" members) (target_branch pc) = false) as Hd
    by (rewrite Href; apply differs_same).
  unfold process_webhook.
  rewrite bind_run, try_run, (try_body_runs environ env _ _ _ _ Hv Hj Hd).
  rewrite (run_commands_success env _ _ _ _ _ Hok). cbn [result clock events].
  rewrite bind_run. cbn [result clock events app]. rewrite Hn, Hname.
  destruct (send_notifications_breaks first rest "Success"
              (Py.join Py.nl (zip_with label (commands pc) outs)) url targets
              (t + length (commands pc)) Hf Hc Hmm Hurl) as [Hr Hu].
  cbn zeta in Hr, Hu. rewrite Hr. cbn [result clock events http_status].
  split; [reflexivity|]. split; [reflexivity|]. split.
  - change (?x :: ?l) with ([x] ++ l).
    rewrite !executed_app, executed_started.
    rewrite (executed_quiet (events _)) by apply send_notifications_quiet.
    cbn. now rewrite app_nil_r.
  - intros u. apply unposted_not_posted.
    constructor; [exact I|]. apply Forall_app. split; [|exact Hu].
    clear. induction (commands pc) as [|c cs IH]; [constructor|].
    cbn. repeat constructor. exact IH.
Qed.

End BrokenName.

Lemma deployment_succeeds_but_dispatch_breaks_witness :
  result (process_webhook Demo.environ Demo.calm Demo.push_main More.shop 0)
  = Raised (Error "IndexError" "list index out of range")
  /\ executed (events (process_webhook Demo.environ Demo.calm Demo.push_main More.shop 0))
     = [Exec ["echo"; "hi"] "/srv/shop"].
Proof.
  destruct (deployment_succeeds_but_dispatch_breaks Demo.environ Demo.calm Demo.push_main
              More.shop [("ref", JStr "refs/heads/main")] Demo.chat ["hi" +:+ Py.nl]
              "shop" "backend" "https://chat.example/hooks/demo" 0)
    as (Hr & _ & He & _).
  - vm_compute. reflexivity.
  - reflexivity.
  - reflexivity.
  - vm_compute. split; reflexivity.
  - reflexivity.
  - vm_compute. reflexivity.
  - discriminate.
  - reflexivity.
  - reflexivity.
  - reflexivity.
  - split; [exact Hr | exact He].
Defined.

(** ** What the handler can answer *)

Section Answers.

Variable environ : Environ.
Variable PROJECTS : gmap string raw_config.
Variable env : Env.

Lemma resolve_cases (project_name : string) :
  match resolve PROJECTS project_name with
  | inl e =>
      e = HTTPException 404 "Project not found"
      \/ exists detail, e = HTTPException 500 ("Invalid project configuration: " +:+ detail)
  | inr pc => PROJECTS !! project_name = Some (Typed pc) /\ commands pc <> []
  end.
Proof.
  unfold resolve.
  destruct (PROJECTS !! project_name) as [[|err|pc]|]; eauto.
  unfold ProjectConfig_init, validate_commands.
  destruct (commands pc) eqn:E; [eauto|]. split; [reflexivity|]. now rewrite E.
Qed.

Lemma process_webhook_status (request : Request) (pc : ProjectConfig) (t : nat) :
  let r := process_webhook environ env request pc t in
  http_status (result r) = 200%Z \/ http_status (result r) = 401%Z
  \/ http_status (result r) = 500%Z.
Proof.
  intros r.
  destruct (result (validate_signature request (secret_token pc) t))
    as [[]|[code detail|kind text]] eqn:Ev.
  - destruct (process_webhook_authenticated environ env request pc t) as [[H|H] _];
      [unfold tame; now rewrite Ev | now left | now right; right].
  - pose proof (validate_signature_code _ _ _ _ _ Ev) as ->.
    subst r. rewrite (process_webhook_unauthenticated environ env request pc t _ _ Ev).
    right; left. reflexivity.
  - destruct (process_webhook_authenticated environ env request pc t) as [[H|H] _];
      [unfold tame; now rewrite Ev | now left | now right; right].
Qed.

(** X5. Whatever the registry, the request and the world, the handler
    answers 200, 401, 404 or 500, and it answers 404 exactly when the
    project is not registered or registered with a falsy value. *)
Theorem handler_status_codes (request : Request) (project_name : string) (t : nat) :
  let r := webhook_handler environ PROJECTS env request project_name t in
  (http_status (result r) = 200%Z \/ http_status (result r) = 401%Z
   \/ http_status (result r) = 404%Z \/ http_status (result r) = 500%Z)
  /\ (http_status (result r) = 404%Z <->
      PROJECTS !! project_name = None \/ PROJECTS !! project_name = Some Falsy).
Proof.
  intros r. subst r. unfold webhook_handler.
  pose proof (resolve_cases project_name) as Hres.
  destruct (resolve PROJECTS project_name) as [e|pc] eqn:E.
  - unfold resolve in E.
    destruct (PROJECTS !! project_name) as [[|err|pc]|] eqn:El.
    + inversion E; subst e. cbn. split; [tauto|]. split; auto.
    + inversion E; subst e. cbn. split; [tauto|].
      split; [lia | intros [H|H]; discriminate H].
    + destruct (ProjectConfig_init pc); inversion E; subst e. cbn. split; [tauto|].
      split; [lia | intros [H|H]; discriminate H].
    + inversion E; subst e. cbn. split; [tauto|]. split; auto.
  - destruct Hres as [Hl _].
    destruct (process_webhook_status request pc t) as [H|[H|H]]; cbn zeta in H.
    all: split; [tauto|]; rewrite H, Hl; split; [lia | intros [H'|H']; discriminate H'].
Qed.

End Answers.

Section Refusals.

Variable environ : Environ.
Variable PROJECTS : gmap string raw_config.
Variable env : Env.

(** X6. A registered project whose command list is empty is never
    processed: the validator of lines 90-94 refuses it, and every request,
    signed or not, is answered 500 without any event. *)
Theorem empty_command_list_is_refused (request : Request) (project_name : string)
    (pc : ProjectConfig) (t : nat) :
  PROJECTS !! project_name = Some (Typed pc) ->
  commands pc = [] ->
  exists detail,
    webhook_handler environ PROJECTS env request project_name t
    = Run (Raised (HTTPException 500 ("Invalid project configuration: " +:+ detail)))
        t [].
Proof.
  intros Hl Hc. unfold webhook_handler, resolve, ProjectConfig_init, validate_commands.
  rewrite Hl, Hc. eexists. reflexivity.
Qed.

End Refusals.

Lemma empty_command_list_is_refused_witness :
  exists detail,
    webhook_handler Demo.environ More.PROJECTS Demo.calm Demo.push_main "idle" 0
    = Run (Raised (HTTPException 500 ("Invalid project configuration: " +:+ detail)))
        0 [].
Proof.
  apply (empty_command_list_is_refused Demo.environ More.PROJECTS Demo.calm
           Demo.push_main "idle" More.idle 0).
  - vm_compute. reflexivity.
  - reflexivity.
Defined.

(** ** What a 200 tells *)

Section Inversion.

Variable environ : Environ.
Variable env : Env.

Lemma except_clauses_raises (pc : ProjectConfig) (e : exn) (t : nat) :
  exists e', result (except_clauses environ env pc e t) = Raised e'.
Proof.
  destruct e as [c d|kind text]; [now eexists|].
  rewrite except_clauses_error. cbn [result].
  destruct (result (send_notifications _ _ _ _ _ _ _)); now eexists.
Qed.

Lemma validate_signature_returns (request : Request) (pc : ProjectConfig) (t : nat) :
  result (validate_signature request (secret_token pc) t) = Returned () ->
  valid_signature request pc.
Proof.
  rewrite validate_signature_run. cbn [result]. unfold valid_signature.
  destruct (signature_header request) as [signature|]; [|discriminate].
  destruct (Py.isascii signature); [|discriminate].
  destruct (String.eqb_spec (expected_signature (secret_token pc) (body request))
              signature) as [->|_]; [reflexivity | discriminate].
Qed.

Lemma run_commands_returns (cwd : string) (cmds : list (list string)) :
  forall (acc res : list string) (t : nat),
    result (run_commands env cmds cwd acc t) = Returned res ->
    exists outs,
      succeed_from env cwd t cmds outs /\ res = acc ++ zip_with label cmds outs.
Proof.
  induction cmds as [|c cs IH]; intros acc res t H.
  - cbn in H. inversion H. exists []. split; [exact I | now rewrite app_nil_r].
  - cbn [run_commands] in H.
    rewrite result_bind in H. cbn [logger emit result clock] in H.
    rewrite result_bind, check_output_run in H. cbn [result clock] in H.
    destruct (child env t c cwd) as [[|rc|rc] out|kind text] eqn:Ec;
      cbn [failure] in H; try discriminate H.
    apply IH in H as (outs & Hok & ->).
    exists (out :: outs). split; [split; [exact Ec | exact Hok]|].
    cbn [zip_with]. now rewrite <- app_assoc.
Qed.

Lemma try_body_inversion (request : Request) (pc : ProjectConfig) (t : nat)
    (x : response + string * string) :
  result (try_body environ env request pc t) = Returned x ->
  valid_signature request pc
  /\ exists members,
       json_body request = inr (JObj members)
       /\ (differs (assoc "ref" members) (target_branch pc) = true
           /\ x = inl [("message", "Push was not to the target branch, ignoring.")]
           \/ differs (assoc "ref" members) (target_branch pc) = false
              /\ exists outs,
                   succeed_from env (directory pc) t (commands pc) outs
                   /\ x = inr ("Success",
                               Py.join Py.nl (zip_with label (commands pc) outs))).
Proof.
  intros H.
  assert (valid_signature request pc) as Hv.
  { apply (validate_signature_returns request pc t).
    unfold try_body in H. rewrite result_bind in H.
    destruct (result (validate_signature request (secret_token pc) t)) as [[]|e];
      [reflexivity | discriminate H]. }
  split; [exact Hv|].
  destruct (json_body request) as [text|payload] eqn:Hj.
  { unfold try_body in H.
    erewrite bind_returned in H by (apply validate_signature_valid, Hv).
    unfold request_json in H. rewrite Hj in H. discriminate H. }
  destruct payload as [| | | | | |members].
  1-6: unfold try_body in H;
    erewrite bind_returned in H by (apply validate_signature_valid, Hv);
    unfold request_json in H; rewrite Hj, mret_bind in H;
    erewrite bind_returned in H by reflexivity; discriminate H.
  exists members. split; [reflexivity|].
  destruct (differs (assoc "ref" members) (target_branch pc)) eqn:Hd.
  - left. split; [reflexivity|].
    rewrite (try_body_ignored environ env _ _ _ _ Hv Hj Hd) in H. cbn [result] in H.
    destruct (result (send_notifications _ _ _ _ _ _ _)); now inversion H.
  - right. split; [reflexivity|].
    rewrite (try_body_runs environ env _ _ _ _ Hv Hj Hd) in H. cbn [result] in H.
    destruct (result (run_commands env (commands pc) (directory pc) [] t))
      as [res|e] eqn:Er; [|discriminate H].
    apply run_commands_returns in Er as (outs & Hok & ->).
    exists outs. split; [exact Hok | now inversion H].
Qed.

(** X7. A 200 is never given lightly. When the processor returns a
    body, the request carried the right signature and a JSON object, and
    either the ref differs from the target branch, the body is the ignored
    message and no command was started; or the ref is the target branch,
    every command of the list was started once, in order, and exited with
    code 0, and the details of the body are their labelled outputs. *)
Theorem a_200_tells_what_happened (request : Request) (pc : ProjectConfig) (t : nat)
    (body : response) :
  let r := process_webhook environ env request pc t in
  result r = Returned body ->
  valid_signature request pc
  /\ exists members,
       json_body request = inr (JObj members)
       /\ (differs (assoc "ref" members) (target_branch pc) = true
           /\ body = [("message", "Push was not to the target branch, ignoring.")]
           /\ executed (events r) = []
           \/ assoc "ref" members = Some (JStr (target_branch pc))
              /\ exists outs,
                   succeed_from env (directory pc) t (commands pc) outs
                   /\ body = [("message",
                               "Webhook received and processed for " +:+ name pc);
                              ("status", "Success");
                              ("details",
                               Py.join Py.nl (zip_with label (commands pc) outs))]
                   /\ executed (events r)
                      = map (fun c => Exec c (directory pc)) (commands pc)).
Proof.
  intros r H. subst r.
  assert (exists x, result (try_body environ env request pc t) = Returned x) as [x Hx].
  { unfold process_webhook in H. rewrite result_bind, result_try in H.
    revert H. change (list (string * string)) with response.
    destruct (result (try_body environ env request pc t)) as [x|e]; [now exists x|].
    destruct (except_clauses_raises pc e (clock (try_body environ env request pc t)))
      as [e' ->].
    discriminate. }
  destruct (try_body_inversion request pc t x Hx)
    as (Hv & members & Hj & [(Hd & ->)|(Hd & outs & Hok & ->)]).
  - split; [exact Hv|]. exists members. split; [exact Hj|]. left.
    split; [exact Hd|].
    rewrite (try_body_ignored environ env _ _ _ _ Hv Hj Hd) in Hx. cbn [result] in Hx.
    destruct (result (send_notifications environ env (name pc) "Ignored" _
                        (notifications pc) t)) as [[]|e] eqn:Es; [|discriminate Hx].
    rewrite (process_webhook_ignored environ env _ _ _ _ Hv Hj Hd Es) in H |- *.
    cbn [result events] in H |- *. split; [now inversion H|].
    apply executed_quiet. constructor; [exact I|]. apply send_notifications_quiet.
  - split; [exact Hv|]. exists members. split; [exact Hj|]. right.
    split.
    { unfold differs in Hd. destruct (assoc "ref" members) as [[| | | |ref| |]|];
        try discriminate Hd.
      apply negb_false_iff, String.eqb_eq in Hd. now subst ref. }
    exists outs. split; [exact Hok|].
    set (details := Py.join Py.nl (zip_with label (commands pc) outs)).
    destruct (result (send_notifications environ env (name pc) "Success" details
                        (notifications pc) (t + length (commands pc))))
      as [[]|e] eqn:Es.
    + rewrite (process_webhook_success environ env _ _ _ _ _ Hv Hj Hd Hok Es) in H |- *.
      cbn [result events] in H |- *. split; [now inversion H|].
      match goal with
      | |- executed (Log ?l ?m :: ?evs) = ?rhs => change (executed evs = rhs)
      end.
      rewrite executed_app, executed_started.
      rewrite (executed_quiet (events _)) by apply send_notifications_quiet.
      cbn. now rewrite app_nil_r.
    + exfalso. unfold process_webhook in H.
      rewrite bind_run, try_run, (try_body_runs environ env _ _ _ _ Hv Hj Hd) in H.
      rewrite (run_commands_success env _ _ _ _ _ Hok) in H.
      cbn [result clock events app] in H. fold details in H.
      rewrite bind_run, Es in H. discriminate H.
Qed.

End Inversion.

Lemma a_200_tells_what_happened_witness :
  executed (events (process_webhook Demo.environ Demo.calm Demo.push_main Demo.demo 0))
  = [Exec ["echo"; "hi"] "/srv/demo"].
Proof.
  destruct (a_200_tells_what_happened Demo.environ Demo.calm Demo.push_main Demo.demo 0
              [("message", "Webhook received and processed for demo");
               ("status", "Success"); ("details", "Command echo hi: hi" +:+ Py.nl)])
    as (_ & members & _ & [(_ & Hb & _)|(_ & outs & _ & _ & Hx)]).
  - vm_compute. reflexivity.
  - discriminate Hb.
  - exact Hx.
Defined.

(** ** What a 500 tells *)

Section Shapes.

Variable environ : Environ.
Variable env : Env.

(** X8. A 500 raised by the processor as an HTTPException was announced:
    a dispatch with status Failed and the very detail of the response is
    among the events. *)
Theorem every_500_was_announced (request : Request) (pc : ProjectConfig) (t : nat)
    (detail : string) :
  result (process_webhook environ env request pc t)
  = Raised (HTTPException 500 detail) ->
  Dispatch (name pc) "Failed" detail ∈ events (process_webhook environ env request pc t).
Proof.
  unfold process_webhook. rewrite bind_run, try_run.
  pose proof (try_body_cases environ env request pc t) as Hcases. cbn zeta in Hcases.
  change (list (string * string)) with response.
  destruct (result (try_body environ env request pc t)) as [x|[c d|kind text]] eqn:Eb.
  - cbn [result clock events].
    destruct x as [early|[status details]]; [discriminate|].
    rewrite bind_run.
    pose proof (send_notifications_tame environ env (name pc) status details
                  (notifications pc) (clock (try_body environ env request pc t))) as Ht.
    unfold tame in Ht.
    destruct (result (send_notifications _ _ _ _ _ _ _)) as [[]|[c d|k x]];
      [discriminate | contradiction | discriminate].
  - destruct (result (validate_signature request (secret_token pc) t))
      as [[]|e] eqn:Ev.
    + destruct Hcases as [Ht _]. unfold tame in Ht. rewrite Eb in Ht. contradiction.
    + rewrite Hcases in Eb. cbn in Eb. inversion Eb; subst e.
      pose proof (validate_signature_code _ _ _ _ _ Ev) as ->.
      cbn. discriminate.
  - cbn zeta. rewrite except_clauses_error. cbn [result clock events].
    pose proof (send_notifications_tame environ env (name pc) "Failed" text
                  (notifications pc) (clock (try_body environ env request pc t))) as Ht.
    pose proof (send_notifications_dispatches environ env (name pc) "Failed" text
                  (notifications pc) (clock (try_body environ env request pc t))) as Hd.
    unfold tame in Ht.
    destruct (result (send_notifications _ _ _ _ _ _ _)) as [[]|[c d|k x]];
      [|contradiction|discriminate].
    cbn [result events]. intros H. inversion H; subst detail.
    apply elem_of_app. right. apply list_elem_of_further. exact Hd.
Qed.

End Shapes.

Lemma every_500_was_announced_witness :
  Dispatch "demo" "Failed" "Command '['make', 'deploy']' returned non-zero exit status 2."
  ∈ events (process_webhook Demo.environ Demo.calm Demo.push_main Demo.deploy 0).
Proof.
  apply (every_500_was_announced Demo.environ Demo.calm Demo.push_main Demo.deploy 0).
  vm_compute. reflexivity.
Defined.

(** ** What is started, and where *)

Section Prefix.

Variable environ : Environ.
Variable env : Env.

Lemma run_commands_prefix (cwd : string) (cmds : list (list string)) :
  forall (acc : list string) (t : nat),
    exists k, executed (events (run_commands env cmds cwd acc t))
              = map (fun c => Exec c cwd) (take k cmds).
Proof.
  induction cmds as [|c cs IH]; intros acc t.
  - exists 0. reflexivity.
  - cbn [run_commands].
    erewrite bind_returned by reflexivity.
    rewrite bind_run, check_output_run. cbn [result clock events].
    match goal with
    | |- context [match ?o with Returned _ => _ | Raised _ => _ end] =>
        destruct o as [out|e]
    end.
    + destruct (IH (acc ++ ["Command " +:+ Py.join " " c +:+ ": " +:+ out]) (S t))
        as [k Hk].
      exists (S k). cbn [events app executed List.filter is_exec take map].
      f_equal. exact Hk.
    + exists 1. reflexivity.
Qed.

Lemma except_clauses_quiet (pc : ProjectConfig) (e : exn) (t : nat) :
  Forall quiet (events (except_clauses environ env pc e t)).
Proof.
  destruct e as [c d|kind text]; [constructor|].
  rewrite except_clauses_error. cbn [events].
  constructor; [exact I|]. apply send_notifications_quiet.
Qed.

Lemma try_body_prefix (request : Request) (pc : ProjectConfig) (t : nat) :
  exists k, executed (events (try_body environ env request pc t))
            = map (fun c => Exec c (directory pc)) (take k (commands pc)).
Proof.
  unfold try_body.
  rewrite bind_run, validate_signature_run. cbn [result clock events app].
  set (v := match signature_header request with Some _ => _ | None => _ end).
  destruct v as [[]|e]; [|now exists 0].
  rewrite run_eta.
  unfold request_json. destruct (json_body request) as [text|payload].
  { rewrite bind_run. now exists 0. }
  rewrite mret_bind, bind_run. cbn [logger emit result clock events].
  destruct payload as [| | | | | |members]; try (rewrite bind_run; now exists 0).
  cbn [payload_get]. rewrite mret_bind.
  destruct (differs _ _).
  - exists 0. cbn [take map]. apply executed_quiet.
    constructor; [exact I|].
    apply events_bind_Forall; [apply send_notifications_quiet|].
    intros _ t'. constructor.
  - rewrite bind_run.
    destruct (run_commands_prefix (directory pc) (commands pc) [] t) as [k Hk].
    exists k.
    destruct (result (run_commands _ _ _ _ _)) as [outs|e];
      cbn [result clock events mret M_ret app executed List.filter is_exec];
      rewrite ?app_nil_r; exact Hk.
Qed.

(** X9. Whatever the request and the world, the child processes started
    are the first commands of the project's list, in the order of the list
    and each in the project's directory: no other command, no other
    directory, no command twice, none skipped. *)
Theorem started_commands_form_a_prefix (request : Request) (pc : ProjectConfig)
    (t : nat) :
  exists k,
    executed (events (process_webhook environ env request pc t))
    = map (fun c => Exec c (directory pc)) (take k (commands pc)).
Proof.
  destruct (try_body_prefix request pc t) as [k Hk]. exists k.
  unfold process_webhook. rewrite events_bind, result_try, events_try.
  change (list (string * string)) with response.
  destruct (result (try_body environ env request pc t)) as [[early|[st det]]|e].
  - cbn [events mret M_ret]. now rewrite app_nil_r.
  - rewrite executed_app, Hk.
    rewrite (executed_quiet (events _)); [now rewrite app_nil_r|].
    apply events_bind_Forall; [apply send_notifications_quiet|].
    intros _ t'. constructor.
  - assert (executed (events (try_body environ env request pc t)
                      ++ events (except_clauses environ env pc e
                                   (clock (try_body environ env request pc t))))
            = map (fun c => Exec c (directory pc)) (take k (commands pc))) as H.
    { rewrite executed_app, Hk, (executed_quiet (events (except_clauses _ _ _ _ _)));
        [now rewrite app_nil_r | apply except_clauses_quiet]. }
    destruct (result (except_clauses _ _ _ _ _)) as [[early|[st det]]|e'].
    + cbn [events mret M_ret]. now rewrite app_nil_r.
    + rewrite executed_app, H.
      rewrite (executed_quiet (events _)); [now rewrite app_nil_r|].
      apply events_bind_Forall; [apply send_notifications_quiet|].
      intros _ t'. constructor.
    + exact H.
Qed.

End Prefix.

(** ** Where deliveries go *)

Section Destinations.

Variable environ : Environ.
Variable env : Env.

Lemma truthy_nonempty (s : string) : Py.truthy (Some s) = true -> s <> "".
Proof. now destruct s. Qed.

Lemma send_email_destined (targets : gmap string string)
    (to_email subject body : string) (t : nat) :
  targets !! "email" = Some to_email -> to_email <> "" ->
  Forall (destined environ (Some targets))
    (events (send_email environ env to_email subject body t)).
Proof.
  intros Hl Hne. unfold send_email.
  destruct (negb _); [repeat constructor|].
  unfold try_except, smtp_call, ask, emit, logger, emit, raise, mbind, M_bind, mret, M_ret.
  cbn. destruct (smtp_fault env t _) as [[[] text]|]; cbn;
    repeat (constructor; [cbn; eauto 6|]); constructor.
Qed.

Lemma send_slack_destined (targets : gmap string string) (message url : string)
    (t : nat) :
  targets !! "slack_webhook" = Some url ->
  Forall (destined environ (Some targets)) (events (send_slack environ env message url t)).
Proof.
  intros Hl. unfold send_slack.
  destruct (_ || _) eqn:E; [repeat constructor|].
  apply orb_false_elim in E as [Etoken Eurl].
  apply negb_false_iff in Etoken. apply negb_false_iff, truthy_nonempty in Eurl.
  apply events_bind_Forall; [rewrite parse_message_events; constructor|].
  intros [[p s] d] t'.
  apply events_bind_Forall; [constructor|].
  intros ts t''. edestruct post_block as (lvl & msg & ->).
  constructor; [|repeat constructor].
  cbn. split; [exact Eurl|]. exists targets. split; [reflexivity|]. left. auto.
Qed.

Lemma send_mattermost_destined (targets : gmap string string) (message url : string)
    (t : nat) :
  targets !! "mattermost_webhook" = Some url ->
  Forall (destined environ (Some targets)) (events (send_mattermost env message url t)).
Proof.
  intros Hl. unfold send_mattermost.
  destruct (negb _) eqn:E; [repeat constructor|].
  apply negb_false_iff, truthy_nonempty in E.
  apply events_bind_Forall; [rewrite parse_message_events; constructor|].
  intros [[p s] d] t'.
  apply events_bind_Forall; [constructor|].
  intros ts t''. edestruct post_block as (lvl & msg & ->).
  constructor; [|repeat constructor].
  cbn. split; [exact E|]. exists targets. split; [reflexivity|]. right. auto.
Qed.

Lemma send_notifications_destined (project_name status details : string)
    (notifications : option (gmap string string)) (t : nat) :
  Forall (destined environ notifications)
    (events (send_notifications environ env project_name status details
               notifications t)).
Proof.
  unfold send_notifications.
  apply events_bind_Forall; [repeat constructor|]. intros _ t1.
  destruct notifications as [targets|]; [|rewrite events_bind; constructor].
  cbn [notifications_get]. rewrite mret_bind.
  apply events_bind_Forall.
  { destruct (targets !! "email") as [to_email|] eqn:E; [|constructor].
    destruct (Py.truthy (Some to_email)) eqn:Et; [|constructor].
    apply send_email_destined; [exact E | now apply truthy_nonempty]. }
  intros _ t2. rewrite mret_bind.
  apply events_bind_Forall.
  { destruct (targets !! "slack_webhook") as [url|] eqn:E; [|constructor].
    destruct (Py.truthy (Some url)); [|constructor].
    now apply send_slack_destined. }
  intros _ t3. rewrite mret_bind.
  destruct (targets !! "mattermost_webhook") as [url|] eqn:E; [|constructor].
  destruct (Py.truthy (Some url)); [|constructor].
  now apply send_mattermost_destined.
Qed.

Lemma run_commands_destined (notifications : option (gmap string string))
    (cwd : string) (cmds : list (list string)) :
  forall (acc : list string) (t : nat),
    Forall (destined environ notifications) (events (run_commands env cmds cwd acc t)).
Proof.
  induction cmds as [|c cs IH]; intros acc t; [constructor|].
  cbn [run_commands].
  apply events_bind_Forall; [repeat constructor|]. intros _ t1.
  apply events_bind_Forall; [rewrite check_output_run; repeat constructor|].
  intros out t2. apply IH.
Qed.

(** X10. Whatever the request and the world, every POST goes to the
    Slack or the Mattermost entry of the project's notification settings
    and every mail to the address of its email entry; the Slack token
    travels in the headers of the POST to the Slack entry only, and never
    when it is not set. *)
Theorem deliveries_go_where_configured (request : Request) (pc : ProjectConfig)
    (t : nat) :
  Forall (destined environ (notifications pc))
    (events (process_webhook environ env request pc t)).
Proof.
  unfold process_webhook.
  apply events_bind_Forall.
  - apply events_try_Forall.
    + unfold try_body.
      apply events_bind_Forall; [rewrite validate_signature_run; constructor|].
      intros _ t1.
      apply events_bind_Forall;
        [unfold request_json; destruct (json_body request); constructor|].
      intros payload t2.
      apply events_bind_Forall; [repeat constructor|]. intros _ t3.
      apply events_bind_Forall; [destruct payload; constructor|]. intros ref t4.
      destruct (differs _ _).
      * apply events_bind_Forall; [apply send_notifications_destined|].
        intros _ t5. constructor.
      * apply events_bind_Forall; [apply run_commands_destined|].
        intros outs t5. constructor.
    + intros e t1. destruct e as [c d|kind text]; [constructor|].
      rewrite except_clauses_error. cbn [events].
      constructor; [exact I|]. apply send_notifications_destined.
  - intros [early|[st det]] t1; [constructor|].
    apply events_bind_Forall; [apply send_notifications_destined|].
    intros _ t2. constructor.
Qed.

End Destinations.

(** ** The signature check *)

(** X11. On a header of ASCII characters the check passes exactly when
    the header is the text sha256= followed by the hexadecimal HMAC-SHA256
    of the raw body under the secret; every other such header is answered
    401 with the detail Invalid signature, and nothing else happens. *)
Theorem ascii_signature_is_checked_exactly (request : Request)
    (secret_token signature : string) (t : nat) :
  signature_header request = Some signature ->
  Py.isascii signature = true ->
  (result (validate_signature request secret_token t) = Returned ()
   <-> signature = expected_signature secret_token (body request))
  /\ (validate_signature request secret_token t = Run (Returned ()) t []
      \/ validate_signature request secret_token t
         = Run (Raised (HTTPException 401 "Invalid signature")) t []).
Proof.
  intros Hh Ha. rewrite validate_signature_run, Hh, Ha. cbn [result].
  destruct (String.eqb_spec (expected_signature secret_token (body request)) signature)
    as [E|Hne].
  - split; [|now left]. split; [now intros _ | reflexivity].
  - split; [|now right]. split; [discriminate | intros E; now destruct Hne].
Qed.

Lemma ascii_signature_is_checked_exactly_witness :
  (result (validate_signature Demo.push_main "s3cret" 0) = Returned ()
   <-> "sha256=232a5e067b6a5aa567ed5a1d21a0dffaf6ef0eeecb6bd9bcf43b3d5ef3fc4f43"
       = expected_signature "s3cret" (body Demo.push_main))
  /\ (validate_signature Demo.push_main "s3cret" 0 = Run (Returned ()) 0 []
      \/ validate_signature Demo.push_main "s3cret" 0
         = Run (Raised (HTTPException 401 "Invalid signature")) 0 []).
Proof.
  apply (ascii_signature_is_checked_exactly Demo.push_main "s3cret"
           "sha256=232a5e067b6a5aa567ed5a1d21a0dffaf6ef0eeecb6bd9bcf43b3d5ef3fc4f43" 0).
  - reflexivity.
  - vm_compute. reflexivity.
Defined.

(** ** Payloads the processor cannot use *)

Section Payloads.

Variable environ : Environ.
Variable env : Env.

(** An error raised in the body of the [try] before any command. *)
Lemma process_webhook_early_error (request : Request) (pc : ProjectConfig) (t t' : nat)
    (kind text : string) (evs : list event) :
  try_body environ env request pc t = Run (Raised (Error kind text)) t' evs ->
  Forall quiet evs ->
  let r := process_webhook environ env request pc t in
  http_status (result r) = 500%Z
  /\ Dispatch (name pc) "Failed" text ∈ events r
  /\ executed (events r) = []
  /\ (forall targets, notifications pc = Some targets -> one_line (name pc) ->
        result r = Raised (HTTPException 500 text)).
Proof.
  intros Hb Hq r.
  assert (result (try_body environ env request pc t) = Raised (Error kind text)) as Hr
    by now rewrite Hb.
  destruct (process_webhook_caught environ env request pc t kind text Hr) as [Hs Hd].
  split; [exact Hs|]. split; [exact Hd|].
  subst r. unfold process_webhook.
  rewrite bind_run, try_run, Hb. cbn [result clock events].
  rewrite except_clauses_error. cbn [result clock events].
  set (s := send_notifications environ env (name pc) "Failed" text (notifications pc) t').
  assert (executed (evs ++ Log ERROR ("Error processing webhook for " +:+ name pc
                                      +:+ ": " +:+ text) :: events s) = []) as Hx.
  { apply executed_quiet, Forall_app. split; [exact Hq|].
    constructor; [exact I|]. apply send_notifications_quiet. }
  split.
  - destruct (result s); cbn [result clock events]; exact Hx.
  - intros targets Hn Hone. subst s. rewrite Hn.
    rewrite send_notifications_result; [reflexivity | exact Hone | reflexivity].
Qed.

(** X12. An authentic request whose body does not decode as JSON is
    answered 500 with the text of the decoding error as detail; the error
    is dispatched with status Failed, and no command is started. *)
Theorem undecodable_body_is_a_failure (request : Request) (pc : ProjectConfig)
    (text : string) (t : nat) :
  valid_signature request pc ->
  json_body request = inl text ->
  let r := process_webhook environ env request pc t in
  http_status (result r) = 500%Z
  /\ Dispatch (name pc) "Failed" text ∈ events r
  /\ executed (events r) = []
  /\ (forall targets, notifications pc = Some targets -> one_line (name pc) ->
        result r = Raised (HTTPException 500 text)).
Proof.
  intros Hv Hj.
  apply (process_webhook_early_error request pc t t "JSONDecodeError" text []);
    [|constructor].
  unfold try_body.
  erewrite bind_returned by (apply validate_signature_valid, Hv).
  unfold request_json. rewrite Hj. reflexivity.
Qed.

(** X13. An authentic request whose body is JSON but not an object (a
    list, a string, an integer, a float, true, false or null) is answered
    500: the lookup of the key ref raises an AttributeError that names the
    Python type (list, str, int, float, bool, NoneType), it is dispatched
    with status Failed, and no command is started. *)
Theorem payload_must_be_an_object (request : Request) (pc : ProjectConfig)
    (payload : json) (t : nat) :
  valid_signature request pc ->
  json_body request = inr payload ->
  (forall members, payload <> JObj members) ->
  let text := "'" +:+ type_name payload +:+ "' object has no attribute 'get'" in
  let r := process_webhook environ env request pc t in
  http_status (result r) = 500%Z
  /\ Dispatch (name pc) "Failed" text ∈ events r
  /\ executed (events r) = []
  /\ (forall targets, notifications pc = Some targets -> one_line (name pc) ->
        result r = Raised (HTTPException 500 text)).
Proof.
  intros Hv Hj Hno text.
  apply (process_webhook_early_error request pc t t "AttributeError" text
           [Log INFO ("Received webhook for project " +:+ name pc)]);
    [|repeat constructor].
  unfold try_body.
  erewrite bind_returned by (apply validate_signature_valid, Hv).
  unfold request_json. rewrite Hj, mret_bind.
  erewrite bind_returned by reflexivity.
  destruct payload as [| | | | | |members]; try reflexivity.
  now destruct (Hno members).
Qed.

End Payloads.

Lemma undecodable_body_is_a_failure_witness :
  http_status (result (process_webhook Demo.environ Demo.calm More.garbage Demo.demo 0))
  = 500%Z
  /\ result (process_webhook Demo.environ Demo.calm More.garbage Demo.demo 0)
     = Raised (HTTPException 500 "Expecting value: line 1 column 1 (char 0)").
Proof.
  destruct (undecodable_body_is_a_failure Demo.environ Demo.calm More.garbage Demo.demo
              "Expecting value: line 1 column 1 (char 0)" 0) as (Hs & _ & _ & Hr).
  - reflexivity.
  - reflexivity.
  - split; [exact Hs|]. apply (Hr Demo.chat); [reflexivity | vm_compute; reflexivity].
Defined.

Lemma payload_must_be_an_object_witness :
  http_status (result (process_webhook Demo.environ Demo.calm More.fraction Demo.demo 0))
  = 500%Z
  /\ result (process_webhook Demo.environ Demo.calm More.fraction Demo.demo 0)
     = Raised (HTTPException 500 "'float' object has no attribute 'get'").
Proof.
  destruct (payload_must_be_an_object Demo.environ Demo.calm More.fraction Demo.demo
              (JFloat (S754_finite false 3 (-1))) 0) as (Hs & _ & _ & Hr).
  - reflexivity.
  - reflexivity.
  - discriminate.
  - split; [exact Hs|]. apply (Hr Demo.chat); [reflexivity | vm_compute; reflexivity].
Defined.

(** ** A project whose notifications entry is null *)

Section NullNotifications.

Variable environ : Environ.
Variable env : Env.

Lemma send_notifications_null (project_name status details : string) (t : nat) :
  send_notifications environ env project_name status details None t
  = Run (Raised (Error "AttributeError" "'NoneType' object has no attribute 'get'")) t
      [Dispatch project_name status details].
Proof. reflexivity. Qed.

Lemma try_body_null (request : Request) (pc : ProjectConfig) (t : nat)
    (early : response) :
  notifications pc = None ->
  result (try_body environ env request pc t) <> Returned (inl early).
Proof.
  intros Hn. unfold try_body. rewrite result_bind.
  destruct (result (validate_signature request (secret_token pc) t)); [|discriminate].
  rewrite result_bind. unfold request_json at 1.
  destruct (json_body request) as [text|payload]; [discriminate|].
  cbn [mret M_ret result clock]. rewrite result_bind. cbn [logger emit result clock].
  rewrite result_bind.
  destruct payload as [| | | | | |members]; try discriminate.
  cbn [payload_get mret M_ret result clock].
  destruct (differs _ _); rewrite result_bind.
  - rewrite Hn, send_notifications_null. discriminate.
  - destruct (result (run_commands _ _ _ _ _)); discriminate.
Qed.

(** X14. A project whose notifications entry is null passes the
    validation of the model, yet no request to it is ever answered 200:
    past the signature check every run ends on the AttributeError of the
    lookup on None, which leaves the handler as a 500, also after all the
    commands have run and succeeded. *)
Theorem null_notifications_always_fail (request : Request) (pc : ProjectConfig)
    (t : nat) :
  notifications pc = None ->
  let r := process_webhook environ env request pc t in
  http_status (result r) <> 200%Z
  /\ (tame (validate_signature request (secret_token pc) t) ->
      result r
      = Raised (Error "AttributeError" "'NoneType' object has no attribute 'get'"))
  /\ (forall members outs,
        valid_signature request pc ->
        json_body request = inr (JObj members) ->
        differs (assoc "ref" members) (target_branch pc) = false ->
        succeed_from env (directory pc) t (commands pc) outs ->
        executed (events r) = map (fun c => Exec c (directory pc)) (commands pc)).
Proof.
  intros Hn r.
  assert (tame (validate_signature request (secret_token pc) t) ->
          result r
          = Raised (Error "AttributeError" "'NoneType' object has no attribute 'get'"))
    as Hauth.
  { intros Hv. subst r. unfold process_webhook.
    pose proof (try_body_cases environ env request pc t) as Hcases. cbn zeta in Hcases.
    pose proof (try_body_null request pc t) as Hnull.
    rewrite result_bind, result_try.
    change (list (string * string)) with response.
    unfold tame in Hv.
    destruct (result (try_body environ env request pc t))
      as [[early|[st det]]|[c d|kind text]] eqn:Eb.
    - now destruct (Hnull early Hn).
    - rewrite Hn, result_bind, send_notifications_null. reflexivity.
    - destruct (result (validate_signature request (secret_token pc) t))
        as [[]|[c' d'|k x]] eqn:Ev.
      + destruct Hcases as [Ht _]. unfold tame in Ht. rewrite Eb in Ht. contradiction.
      + contradiction.
      + rewrite Hcases in Eb. discriminate Eb.
    - rewrite except_clauses_error, Hn, send_notifications_null. reflexivity. }
  split; [|split; [exact Hauth|]].
  - destruct (result (validate_signature request (secret_token pc) t))
      as [[]|[c d|k x]] eqn:Ev.
    + rewrite Hauth; [discriminate | unfold tame; now rewrite Ev].
    + pose proof (validate_signature_code _ _ _ _ _ Ev) as ->.
      subst r. rewrite (process_webhook_unauthenticated environ env request pc t _ _ Ev).
      discriminate.
    + rewrite Hauth; [discriminate | unfold tame; now rewrite Ev].
  - intros members outs Hv Hj Hd Hok. subst r. unfold process_webhook.
    rewrite bind_run, try_run, (try_body_runs environ env _ _ _ _ Hv Hj Hd).
    rewrite (run_commands_success env _ _ _ _ _ Hok). cbn [result clock events].
    rewrite Hn, bind_run, send_notifications_null. cbn [result clock events].
    change (Log INFO ("Received webhook for project " +:+ name pc)
            :: started (directory pc) (commands pc))
      with ([Log INFO ("Received webhook for project " +:+ name pc)]
            ++ started (directory pc) (commands pc)).
    rewrite !executed_app, executed_started. cbn. now rewrite app_nil_r.
Qed.

End NullNotifications.

Lemma null_notifications_always_fail_witness :
  result (process_webhook Demo.environ Demo.calm Demo.push_main More.mute 0)
  = Raised (Error "AttributeError" "'NoneType' object has no attribute 'get'")
  /\ executed (events (process_webhook Demo.environ Demo.calm Demo.push_main More.mute 0))
     = [Exec ["echo"; "hi"] "/srv/mute"].
Proof.
  destruct (null_notifications_always_fail Demo.environ Demo.calm Demo.push_main
              More.mute 0) as (_ & Hr & Hx).
  - reflexivity.
  - split.
    + apply Hr. vm_compute. exact I.
    + apply (Hx [("ref", JStr "refs/heads/main")] ["hi" +:+ Py.nl]).
      * vm_compute. reflexivity.
      * reflexivity.
      * reflexivity.
      * vm_compute. split; reflexivity.
Defined.

(** ** The script run as a program *)

Section ProgramFacts.

Variable getenv : string -> option string.
Variable int : string -> string + Z.

Lemma missing_vars_nil :
  missing_vars getenv = [] ->
  forall var, var ∈ required_vars -> Py.truthy (getenv var) = true.
Proof.
  unfold missing_vars. intros Hm var Hin.
  destruct (Py.truthy (getenv var)) eqn:E; [reflexivity|].
  assert (In var (List.filter (fun var => negb (Py.truthy (getenv var))) required_vars))
    as Hf.
  { apply List.filter_In. split; [now apply list_elem_of_In | now rewrite E]. }
  rewrite Hm in Hf. destruct Hf.
Qed.

Lemma truthy_value (o : option string) :
  Py.truthy o = true -> exists s, o = Some s /\ s <> "".
Proof. destruct o as [[|c s]|]; try discriminate. intros _. now eexists. Qed.

Lemma main_serving (host : string) (port : Z) :
  snd (main getenv int) = Serving host port ->
  missing_vars getenv = []
  /\ int (default "8000" (getenv "WEBHOOK_PORT")) = inr port
  /\ host = default "0.0.0.0" (getenv "WEBHOOK_HOST").
Proof.
  unfold main. destruct (missing_vars getenv) as [|v vs]; [|discriminate].
  destruct (int _) as [err|p]; [discriminate|].
  cbn. intros H. inversion H. auto.
Qed.

Lemma missing_vars_none :
  (forall var, var ∈ required_vars -> Py.truthy (getenv var) = true) ->
  missing_vars getenv = [].
Proof.
  intros Hall. unfold missing_vars, required_vars in *.
  cbn [List.filter].
  rewrite !Hall by set_solver. reflexivity.
Qed.

Lemma main_exits :
  snd (main getenv int) = Exit 1
  <-> exists var, var ∈ required_vars /\ Py.truthy (getenv var) = false.
Proof.
  split.
  - intros H. unfold main in H.
    destruct (missing_vars getenv) as [|v vs] eqn:Em.
    { destruct (int _); discriminate. }
    assert (In v (missing_vars getenv)) as Hin by (rewrite Em; now left).
    unfold missing_vars in Hin. apply List.filter_In in Hin as [Hr Hf].
    exists v. split; [now apply list_elem_of_In | now apply negb_true_iff].
  - intros (var & Hin & Hf). unfold main.
    destruct (missing_vars getenv) as [|v vs] eqn:Em; [|reflexivity].
    rewrite (missing_vars_nil Em var Hin) in Hf. discriminate.
Qed.

Lemma main_serves (host : string) (port : Z) :
  snd (main getenv int) = Serving host port
  <-> (forall var, var ∈ required_vars -> Py.truthy (getenv var) = true)
      /\ getenv "WEBHOOK_HOST" = Some host
      /\ exists text, getenv "WEBHOOK_PORT" = Some text /\ int text = inr port.
Proof.
  split.
  - intros H. apply main_serving in H as (Hm & Hp & Hh).
    pose proof (missing_vars_nil Hm) as Hall.
    split; [exact Hall|].
    destruct (truthy_value (getenv "WEBHOOK_HOST")) as (h & Eh & _);
      [apply Hall; unfold required_vars; set_solver|].
    destruct (truthy_value (getenv "WEBHOOK_PORT")) as (p & Ep & _);
      [apply Hall; unfold required_vars; set_solver|].
    rewrite Eh in Hh. rewrite Ep in Hp. cbn in Hh, Hp. subst host.
    split; [exact Eh|]. now exists p.
  - intros (Hall & Eh & text & Ep & Hi). unfold main.
    rewrite (missing_vars_none Hall), Eh, Ep. cbn [default]. cbn.
    now rewrite Hi.
Qed.

Lemma main_ends :
  (exists host port, snd (main getenv int) = Serving host port)
  \/ exit_status (snd (main getenv int)) = Some 1%Z.
Proof.
  unfold main. destruct (missing_vars getenv); [|now right].
  destruct (int _) as [err|port]; [now right|]. left. now eexists _, _.
Qed.

Variable config_error : option exn.

(** X15. The script reaches [uvicorn.run] exactly when reading the
    configuration file raises nothing but a FileNotFoundError, SMTP_PORT is
    unset or an integer, the six required variables are set and not empty,
    and WEBHOOK_PORT is an integer; host and port are then those of the
    environment, so the defaults 0.0.0.0 and 8000 of lines 294-295 are
    never used. In every other case the process ends with status 1: by the
    [sys.exit(1)] of line 292 exactly when the module loaded and one of
    the six is unset or empty, by an exception nobody catches otherwise. *)
Theorem script_serves_or_ends_with_status_1 :
  let loaded :=
    snd (load_config getenv config_error) = None
    /\ exists environ, environ_of getenv int = inr environ in
  let s := snd (script getenv int config_error) in
  (forall host port,
     s = Serving host port
     <-> loaded
         /\ (forall var, var ∈ required_vars -> Py.truthy (getenv var) = true)
         /\ getenv "WEBHOOK_HOST" = Some host
         /\ exists text, getenv "WEBHOOK_PORT" = Some text /\ int text = inr port)
  /\ ((exists host port, s = Serving host port) \/ exit_status s = Some 1%Z)
  /\ (s = Exit 1
      <-> loaded
          /\ exists var, var ∈ required_vars /\ Py.truthy (getenv var) = false).
Proof.
  intros loaded s. subst loaded s. unfold script.
  destruct (load_config getenv config_error) as [logged [e|]].
  { cbn [snd]. split; [|split].
    - intros host port. split; [discriminate | intros [[H _] _]; discriminate H].
    - now right.
    - split; [discriminate | intros [[H _] _]; discriminate H]. }
  destruct (environ_of getenv int) as [err|environ].
  { cbn [snd]. split; [|split].
    - intros host port.
      split; [discriminate | intros [[_ [environ H]] _]; discriminate H].
    - now right.
    - split; [discriminate | intros [[_ [environ H]] _]; discriminate H]. }
  cbn [snd]. split; [|split].
  - intros host port. rewrite main_serves. split; [|tauto].
    intros H. split; [split; [reflexivity | now exists environ] | exact H].
  - apply main_ends.
  - rewrite main_exits. split; [|tauto].
    intros H. split; [split; [reflexivity | now exists environ] | exact H].
Qed.

(** X16. The check does not cover the sender address: in a server that
    came up, the three mail settings it asks for are present, so a mail is
    attempted exactly when FROM_EMAIL is set and not empty, and is skipped
    with a warning otherwise. *)
Theorem started_server_mails_iff_sender_is_set (environ : Environ) (env : Env)
    (host : string) (port : Z) (to_email subject body : string) (t : nat) :
  environ_of getenv int = inr environ ->
  snd (main getenv int) = Serving host port ->
  smtp_complete environ = Py.truthy (getenv "FROM_EMAIL")
  /\ (Py.truthy (getenv "FROM_EMAIL") = false ->
      send_email environ env to_email subject body t
      = Run (Returned ()) t
          [Log WARNING "Email configuration incomplete, skipping email notification"])
  /\ (Py.truthy (getenv "FROM_EMAIL") = true ->
      exists rest,
        events (send_email environ env to_email subject body t)
        = SmtpConnect (default "" (getenv "SMTP_SERVER"))
            (default 587%Z (SMTP_PORT environ)) :: rest).
Proof.
  intros He Hm. apply main_serving in Hm as (Hm & _ & _).
  pose proof (missing_vars_nil Hm) as Hall.
  assert (Py.truthy (getenv "SMTP_SERVER") = true) as Hserver
    by (apply Hall; unfold required_vars; set_solver).
  assert (Py.truthy (getenv "SMTP_USER") = true) as Huser
    by (apply Hall; unfold required_vars; set_solver).
  assert (Py.truthy (getenv "SMTP_PASSWORD") = true) as Hpassword
    by (apply Hall; unfold required_vars; set_solver).
  assert (SMTP_SERVER environ = getenv "SMTP_SERVER"
          /\ SMTP_USER environ = getenv "SMTP_USER"
          /\ SMTP_PASSWORD environ = getenv "SMTP_PASSWORD"
          /\ FROM_EMAIL environ = getenv "FROM_EMAIL") as (Es & Eu & Ep & Ef).
  { unfold environ_of in He.
    destruct (getenv "SMTP_PORT") as [text|];
      [destruct (int text); [discriminate|]|]; inversion He; cbn; auto. }
  assert (smtp_complete environ = Py.truthy (getenv "FROM_EMAIL")) as Hc.
  { unfold smtp_complete. now rewrite Es, Eu, Ep, Ef, Hserver, Huser, Hpassword. }
  split; [exact Hc|]. split.
  - intros Hf. unfold send_email.
    cbn [EMAIL_CONFIG smtp_server smtp_user smtp_password from_email].
    fold (smtp_complete environ). rewrite Hc, Hf. reflexivity.
  - intros Hf. unfold send_email.
    cbn [EMAIL_CONFIG smtp_server smtp_user smtp_password from_email smtp_port].
    fold (smtp_complete environ). rewrite Hc, Hf. cbn [negb]. rewrite <- Es.
    unfold try_except, smtp_call, ask, emit, logger, emit, raise, mbind, M_bind, mret,
      M_ret.
    cbn. destruct (smtp_fault env t _) as [[[] text]|]; cbn; eexists; reflexivity.
Qed.

End ProgramFacts.

Lemma script_serves_or_ends_with_status_1_witness :
  More.getenv "WEBHOOK_HOST" = Some "127.0.0.1"
  /\ exists text, More.getenv "WEBHOOK_PORT" = Some text /\ More.int text = inr 9000%Z.
Proof.
  destruct (script_serves_or_ends_with_status_1 More.getenv More.int None) as [H _].
  destruct (proj1 (H "127.0.0.1" 9000%Z)) as (_ & _ & Hh & Hp);
    [vm_compute; reflexivity|].
  split; assumption.
Defined.

Lemma started_server_mails_iff_sender_is_set_witness :
  send_email More.environ Demo.calm "ops@example.org" "Webhook Update: demo" "text" 0
  = Run (Returned ()) 0
      [Log WARNING "Email configuration incomplete, skipping email notification"].
Proof.
  destruct (started_server_mails_iff_sender_is_set More.getenv More.int More.environ
              Demo.calm "127.0.0.1" 9000%Z "ops@example.org" "Webhook Update: demo"
              "text" 0) as (_ & H & _).
  - reflexivity.
  - vm_compute. reflexivity.
  - apply H. reflexivity.
Defined.
